(** * PSA_TAP notebook: the attached-label locator, the label reader and the
      image unpacker

    A shallow embedding of the cells of [PSA_TAP_AS_Forum_short.ipynb] that do
    byte-level work of their own:

    - the cell that picks [data_file] out of the zip listing,
    - [read_label],
    - the cells that compute [offset], [rows], [cols], [samples] and [data],
    - the minimum and the maximum of the cell that checks [data] against the
      label.

    Python integers are [Z]; a Python [str] is the list of its code points; a
    [bytes] object is a [list byte].  The standard-library and numpy calls the
    cells make ([PurePath.parts], [bytes.decode], [str.strip], [str.join],
    [zip.open], [readline], [read], [struct.unpack_from], [np.array],
    [ndarray.reshape]) are modelled after CPython (64-bit) and numpy (64-bit
    items), on a POSIX host.  A member of the archive is sound, or fails when
    it is opened, or fails when it is read. *)

From Stdlib Require Import ZArith NArith List String Ascii Bool Lia.
From Stdlib Require Import Strings.Byte.
Import ListNotations.

Local Open Scope Z_scope.

(* ------------------------------------------------------------------------- *)
(** ** Python values, exceptions and the exception monad *)

Module Py.

(** A [str]: the sequence of its Unicode code points. *)
Definition str := list N.

(** A [bytes] object. *)
Definition bytes := list byte.

(** The code points of an ASCII literal of the source. *)
Definition lit (s : string) : str :=
  List.map N_of_ascii (list_ascii_of_string s).

(** The bytes of an ASCII literal. *)
Definition blit (s : string) : bytes := list_byte_of_string s.

Definition str_eqb (a b : str) : bool :=
  if list_eq_dec N.eq_dec a b then true else false.

(** The messages [struct.error] carries on the paths of [unpack_from]. *)
Inductive StructMsg :=
| BadCharInFormat                          (* bad char in struct format *)
| TotalSizeTooLong                         (* total struct size too long *)
| NotEnoughData (size offset : Z)          (* not enough data to unpack .. bytes at offset .. *)
| OffsetOutOfRange (offset len : Z)        (* offset .. out of range for ..-byte buffer *)
| BufferTooSmall (need size offset len : Z).
                                           (* unpack_from requires a buffer of at least .. bytes .. *)

(** The exceptions the cells can raise.  The notebook defines no exception
    class of its own and has no [try]/[except]: whatever the library calls
    raise propagates.  The last five come from [zipfile] on a member that
    cannot be opened or read ([ZlibError] is [zlib.error]). *)
Inductive PyExn :=
| IndexError (msg : string)
| KeyError (key : str)
| NameError (name : string)
| UnicodeDecodeError
| OverflowError (msg : string)
| ValueError (msg : string)
| StructError (msg : StructMsg)
| RuntimeError
| NotImplementedError
| BadZipFile
| ZlibError
| EOFError.

Inductive result (A : Type) :=
| Ok (a : A)
| Raise (e : PyExn).
Arguments Ok {A} a.
Arguments Raise {A} e.

Definition bind {A B} (m : result A) (k : A -> result B) : result B :=
  match m with
  | Ok a => k a
  | Raise e => Raise e
  end.

(** [seq[i]] for a non-negative literal index: [IndexError] past the end. *)
Definition index {A} (what : string) (l : list A) (i : nat) : result A :=
  match nth_error l i with
  | Some a => Ok a
  | None => Raise (IndexError (String.append what " index out of range"))
  end.

(** [sep.join(items)] *)
Fixpoint join (sep : str) (items : list str) : str :=
  match items with
  | [] => []
  | [x] => x
  | x :: rest => x ++ sep ++ join sep rest
  end.

(** [s.split(sep)] for a one-character separator: never empty, an empty
    string between two adjacent separators. *)
Fixpoint split (sep : N) (s : str) : list str :=
  match s with
  | [] => [[]]
  | c :: r =>
      if N.eqb c sep then [] :: split sep r
      else match split sep r with
           | [] => [[c]]
           | w :: ws => (c :: w) :: ws
           end
  end.

(** [str.isspace] on one code point (the Unicode White_Space set CPython
    uses, which adds the separators U+001C..U+001F). *)
Definition isspace (c : N) : bool :=
  ((9 <=? c) && (c <=? 13) || (28 <=? c) && (c <=? 32)
   || (c =? 133) || (c =? 160) || (c =? 5760)
   || (8192 <=? c) && (c <=? 8202)
   || (c =? 8232) || (c =? 8233) || (c =? 8239) || (c =? 8287)
   || (c =? 12288))%N.

Fixpoint lstrip (s : str) : str :=
  match s with
  | [] => []
  | c :: r => if isspace c then lstrip r else s
  end.

Definition rstrip (s : str) : str := rev (lstrip (rev s)).

(** [s.strip()] *)
Definition strip (s : str) : str := rstrip (lstrip s).

End Py.
Export Py.

Declare Scope py_scope.
Delimit Scope py_scope with py.
Notation "x <- m ;; k" := (bind m (fun x => k))
  (at level 61, m at next level, right associativity) : py_scope.
Local Open Scope py_scope.

(* ------------------------------------------------------------------------- *)
(** ** [pathlib.PurePath(...).parts], POSIX flavour *)

Module PurePath.

Definition slash : N := 47.
Definition dot : N := 46.

(** [posixpath.splitroot]: the root is empty, one slash, or two slashes when
    the path starts with exactly two. *)
Definition splitroot (p : str) : str * str :=
  match p with
  | c0 :: r0 =>
      if N.eqb c0 slash then
        match r0 with
        | c1 :: r1 =>
            if N.eqb c1 slash then
              match r1 with
              | c2 :: _ => if N.eqb c2 slash then ([slash], r0)
                           else ([slash; slash], r1)
              | [] => ([slash; slash], r1)
              end
            else ([slash], r0)
        | [] => ([slash], r0)
        end
      else ([], p)
  | [] => ([], p)
  end.

Definition keep_component (x : str) : bool :=
  negb (str_eqb x []) && negb (str_eqb x [dot]).

(** The tuple [PurePath(p).parts]: the root, when there is one, and then the
    components that are neither empty nor a single dot. *)
Definition parts (p : str) : list str :=
  let '(root, rel) := splitroot p in
  let tail := filter keep_component (split slash rel) in
  match root with
  | [] => tail
  | _ => root :: tail
  end.

End PurePath.

(* ------------------------------------------------------------------------- *)
(** ** The label locator

<<
data_file = [file for file in zipfiles[:-1]
             if PurePath(file).parts[1]=='DATA'][0]
>> *)

Module Locator.

Definition DATA : str := lit "DATA".

(** The condition of the comprehension: [PurePath(file).parts[1]=='DATA'].
    It raises when the path has fewer than two components. *)
Definition in_DATA (file : str) : result bool :=
  c <- index "tuple" (PurePath.parts file) 1 ;;
  Ok (str_eqb c DATA).

(** The list comprehension, entry by entry, in order. *)
Fixpoint comprehension (files : list str) : result (list str) :=
  match files with
  | [] => Ok []
  | file :: rest =>
      keep <- in_DATA file ;;
      tl <- comprehension rest ;;
      Ok (if keep then file :: tl else tl)
  end.

(** [zipfiles[:-1]] is [removelast zipfiles]. *)
Definition data_file (zipfiles : list str) : result str :=
  found <- comprehension (removelast zipfiles) ;;
  index "list" found 0.

(** The two errors the cell can raise: [parts[1]] on a tuple of fewer than
    two components, and [[0]] on an empty list. *)
Definition tuple_index_error : PyExn := IndexError "tuple index out of range".
Definition list_index_error : PyExn := IndexError "list index out of range".

(** Vocabulary of the statements: the number of components of a path, and
    whether its component of index 1 is [DATA]. *)
Definition n_parts (file : str) : nat := List.length (PurePath.parts file).

Definition second_is_DATA (file : str) : bool :=
  match nth_error (PurePath.parts file) 1 with
  | Some c => str_eqb c DATA
  | None => false
  end.

End Locator.

(* ------------------------------------------------------------------------- *)
(** ** [bytes.decode('utf8')] *)

Module Utf8.

Local Open Scope N_scope.

Definition between (lo hi b : N) : bool := (lo <=? b) && (b <=? hi).

(** A continuation byte, [10xxxxxx]. *)
Definition is_cont (b : N) : bool := between 128 191 b.

(** Strict decoding of well-formed UTF-8: no overlong forms, no surrogates,
    nothing above U+10FFFF.  [None] is [UnicodeDecodeError]. *)
Fixpoint decode_points (bs : list N) : option str :=
  match bs with
  | [] => Some []
  | b0 :: r =>
      if b0 <? 128 then option_map (cons b0) (decode_points r)
      else if between 194 223 b0 then
        match r with
        | b1 :: r1 =>
            if is_cont b1
            then option_map (cons ((b0 - 192) * 64 + (b1 - 128)))
                            (decode_points r1)
            else None
        | _ => None
        end
      else if between 224 239 b0 then
        match r with
        | b1 :: b2 :: r2 =>
            let lo := if b0 =? 224 then 160 else 128 in
            let hi := if b0 =? 237 then 159 else 191 in
            if between lo hi b1 && is_cont b2
            then option_map
                   (cons ((b0 - 224) * 4096 + (b1 - 128) * 64 + (b2 - 128)))
                   (decode_points r2)
            else None
        | _ => None
        end
      else if between 240 244 b0 then
        match r with
        | b1 :: b2 :: b3 :: r3 =>
            let lo := if b0 =? 240 then 144 else 128 in
            let hi := if b0 =? 244 then 143 else 191 in
            if between lo hi b1 && is_cont b2 && is_cont b3
            then option_map
                   (cons ((b0 - 240) * 262144 + (b1 - 128) * 4096
                          + (b2 - 128) * 64 + (b3 - 128)))
                   (decode_points r3)
            else None
        | _ => None
        end
      else None
  end.

Definition decode (b : bytes) : result str :=
  match decode_points (List.map Byte.to_N b) with
  | Some s => Ok s
  | None => Raise UnicodeDecodeError
  end.

End Utf8.

(* ------------------------------------------------------------------------- *)
(** ** The opened archive: [zip = zipfile.ZipFile(...)] *)

Module ZipFile.

(** What makes [zip.open] raise on a member that is listed: it is
    encrypted ([RuntimeError], no password is given), its compression
    method is not supported ([NotImplementedError]), or its local header is
    damaged ([BadZipFile]). *)
Inductive open_defect :=
| Encrypted
| UnsupportedCompression
| BadHeader.

Definition open_exn (d : open_defect) : PyExn :=
  match d with
  | Encrypted => RuntimeError
  | UnsupportedCompression => NotImplementedError
  | BadHeader => BadZipFile
  end.

(** What makes a read of an opened member raise: the check sum does not
    match ([BadZipFile]), the compressed data are corrupt ([zlib.error]),
    or the archive ends before the member does ([EOFError]). *)
Inductive read_defect :=
| BadCRC
| BadStream
| Truncated.

Definition read_exn (d : read_defect) : PyExn :=
  match d with
  | BadCRC => BadZipFile
  | BadStream => ZlibError
  | Truncated => EOFError
  end.

(** The condition of a member.  A member that fails on reading hands out
    its first [good] bytes; the read that needs a byte past them, or the
    end of the member, raises.  (Where [good] lies depends on the size of
    the blocks the stream fetches and on the compression; it is a
    parameter here.) *)
Inductive condition :=
| Sound
| FailsOnOpen (d : open_defect)
| FailsOnRead (good : nat) (d : read_defect).

Record member := mk_member {
  content : bytes;          (* the uncompressed contents *)
  condition_of : condition
}.

(** A member with nothing wrong. *)
Definition intact (content : bytes) : member := mk_member content Sound.

(** The members in listing order, each with its name. *)
Definition archive := list (str * member).

(** [zip.namelist()] *)
Definition namelist (z : archive) : list str := List.map fst z.

(** The name-to-member dictionary is filled in listing order, so of two
    members of one name the later one is found. *)
Fixpoint getinfo (z : archive) (name : str) : option member :=
  match z with
  | [] => None
  | (n, m) :: rest =>
      match getinfo rest name with
      | Some c => Some c
      | None => if str_eqb n name then Some m else None
      end
  end.

(** An opened member: the bytes still to be read and, for a member that
    fails on reading, how many of them can still be handed out. *)
Record stream := mk_stream {
  pending : bytes;
  fault : option (nat * read_defect)
}.

(** The stream of a sound member, or what is left of it. *)
Definition whole (f : bytes) : stream := mk_stream f None.

(** [zip.open(name)]: a binary stream positioned at the start of the
    member. *)
Definition open (z : archive) (name : str) : result stream :=
  match getinfo z name with
  | None => Raise (KeyError name)
  | Some m =>
      match condition_of m with
      | Sound => Ok (whole (content m))
      | FailsOnOpen d => Raise (open_exn d)
      | FailsOnRead good d => Ok (mk_stream (content m) (Some (good, d)))
      end
  end.

Definition LF : byte := x0a.

(** [f.readline()] on the bytes still to be read of a sound stream: the
    bytes up to and including the next line feed, or what is left; [b'']
    at end of file.  Returns the line and the bytes after it. *)
Fixpoint readline (f : bytes) : bytes * bytes :=
  match f with
  | [] => ([], [])
  | b :: r =>
      if Byte.eqb b LF then ([b], r)
      else let '(l, r') := readline r in (b :: l, r')
  end.

Definition ends_with_LF (raw : bytes) : bool :=
  match rev raw with
  | b :: _ => Byte.eqb b LF
  | [] => false
  end.

(** [f.readline()] on an opened stream.  On a stream that fails on
    reading, a line is handed out when it ends, line feed included, within
    the bytes that can be. *)
Definition stream_readline (f : stream) : result (bytes * stream) :=
  let '(raw, rest) := readline (pending f) in
  match fault f with
  | None => Ok (raw, whole rest)
  | Some (good, d) =>
      if ends_with_LF raw && (List.length raw <=? good)%nat
      then Ok (raw, mk_stream rest (Some ((good - List.length raw)%nat, d)))
      else Raise (read_exn d)
  end.

(** [f.read()]: all of the member; it reaches the end, so it raises on a
    stream that fails on reading. *)
Definition read (f : stream) : result bytes :=
  match fault f with
  | None => Ok (pending f)
  | Some (_, d) => Raise (read_exn d)
  end.

End ZipFile.

(* ------------------------------------------------------------------------- *)
(** ** The label reader

<<
def read_label(data_file):
    label = []
    with zip.open(data_file) as f:
        line = f.readline().decode('utf8')
        while line.strip() != 'END':
            if line.strip() == '':
                line = f.readline().decode('utf8')
                continue
            else:
                label.append(line.strip())
                line = f.readline().decode('utf8')
    return '\r\n'.join(label)
>> *)

Module Reader.

Definition END : str := lit "END".
Definition CRLF : str := [13%N; 10%N].

(** [f.readline().decode('utf8')]: the decoded line and the stream after it. *)
Definition next_line (f : ZipFile.stream) : result (str * ZipFile.stream) :=
  r <- ZipFile.stream_readline f ;;
  line <- Utf8.decode (fst r) ;;
  Ok (line, snd r).

(** The [while] loop.  One unit of fuel pays for one evaluation of the loop
    condition; [None] means the fuel ran out with the loop still running. *)
Fixpoint while_loop (fuel : nat) (f : ZipFile.stream) (line : str)
  (label : list str) : option (result (list str)) :=
  match fuel with
  | O => None
  | S fuel' =>
      if negb (str_eqb (strip line) END) then
        if str_eqb (strip line) [] then
          match next_line f with
          | Raise e => Some (Raise e)
          | Ok (line', f') => while_loop fuel' f' line' label
          end
        else
          let label' := label ++ [strip line] in
          match next_line f with
          | Raise e => Some (Raise e)
          | Ok (line', f') => while_loop fuel' f' line' label'
          end
      else Some (Ok label)
  end.

(** The body of the [with] block and the [return], on the opened stream. *)
Definition read_stream (fuel : nat) (f : ZipFile.stream)
  : option (result str) :=
  match next_line f with
  | Raise e => Some (Raise e)
  | Ok (line, f') =>
      match while_loop fuel f' line [] with
      | None => None
      | Some (Raise e) => Some (Raise e)
      | Some (Ok label) => Some (Ok (join CRLF label))
      end
  end.

(** [read_label(data_file)], reading the global [zip]. *)
Definition read_label (fuel : nat) (zip : ZipFile.archive) (data_file : str)
  : option (result str) :=
  match ZipFile.open zip data_file with
  | Raise e => Some (Raise e)
  | Ok f => read_stream fuel f
  end.

(** Vocabulary of the statements, on the bytes of a sound stream: the
    [n]-th line [readline] hands out ([b''] for ever once the member is
    exhausted), and what it means for a decoded line to be the sentinel. *)
Fixpoint nth_line (n : nat) (f : bytes) : bytes :=
  match n with
  | O => fst (ZipFile.readline f)
  | S n' => nth_line n' (snd (ZipFile.readline f))
  end.

Definition is_END (raw : bytes) : bool :=
  match Utf8.decode raw with
  | Ok line => str_eqb (strip line) END
  | Raise _ => false
  end.

Definition decodes (raw : bytes) : bool :=
  match Utf8.decode raw with
  | Ok _ => true
  | Raise _ => false
  end.

(** No line of the member is the sentinel; every line of it is UTF-8. *)
Definition no_END_line (f : bytes) : Prop :=
  forall n, is_END (nth_line n f) = false.

Definition all_lines_decode (f : bytes) : Prop :=
  forall n, decodes (nth_line n f) = true.

(** The label text of the worked example: the lines [A = 1], [B = 2], an
    empty line and [END], each ended by a line feed. *)
Definition example_label : bytes :=
  blit "A = 1" ++ [ZipFile.LF] ++ blit "B = 2" ++ [ZipFile.LF]
  ++ [ZipFile.LF] ++ blit "END" ++ [ZipFile.LF].

End Reader.

(* ------------------------------------------------------------------------- *)
(** ** [struct.unpack_from('<%dH' % count, buffer, offset)] *)

Module Struct.

(** The largest [Py_ssize_t] of a 64-bit CPython, and the smallest. *)
Definition PY_SSIZE_T_MAX : Z := 9223372036854775807.
Definition PY_SSIZE_T_MIN : Z := - PY_SSIZE_T_MAX - 1.

(** One [H] item of a [<] format: two bytes, low byte first. *)
Definition uint16_le (b0 b1 : byte) : Z :=
  Z.of_N (Byte.to_N b0) + 256 * Z.of_N (Byte.to_N b1).

Fixpoint unpack_H (count : nat) (buf : bytes) : list Z :=
  match count, buf with
  | S n, b0 :: b1 :: r => uint16_le b0 b1 :: unpack_H n r
  | _, _ => []
  end.

(** [struct.pack('<H', v)], the encoding [unpack_H] reads back. *)
Definition byte_of_Z (v : Z) : byte :=
  match Byte.of_N (Z.to_N (v mod 256)) with
  | Some b => b
  | None => x00
  end.

Definition pack_H (v : Z) : bytes := [byte_of_Z v; byte_of_Z (v / 256)].

(** The call of the notebook.  [count] is the integer printed by [%d] into
    the format: a negative one prints a minus sign, which is no format
    character; a count so large that [2 * count] passes [PY_SSIZE_T_MAX] is
    refused when the format is compiled.  The offset is then converted to
    [Py_ssize_t].  A negative offset counts from the end of the buffer. *)
Definition unpack_from (count : Z) (buffer : bytes) (offset : Z)
  : result (list Z) :=
  if count <? 0 then Raise (StructError BadCharInFormat)
  else if PY_SSIZE_T_MAX / 2 <? count then Raise (StructError TotalSizeTooLong)
  else if (offset <? PY_SSIZE_T_MIN) || (PY_SSIZE_T_MAX <? offset)
  then Raise (OverflowError "Python int too large to convert to C ssize_t")
  else
    let size := 2 * count in
    let len := Z.of_nat (List.length buffer) in
    if (offset <? 0) && (0 <? offset + size)
    then Raise (StructError (NotEnoughData size offset))
    else if (offset <? 0) && (offset + len <? 0)
    then Raise (StructError (OffsetOutOfRange offset len))
    else
      let offset := if offset <? 0 then offset + len else offset in
      if len - offset <? size
      then Raise (StructError (BufferTooSmall (size + offset) size offset len))
      else Ok (unpack_H (Z.to_nat count) (skipn (Z.to_nat offset) buffer)).

End Struct.

(* ------------------------------------------------------------------------- *)
(** ** [np.array(t).reshape((d0, d1))] *)

Module Numpy.

(** A two-dimensional array: its shape and its elements in C (row-major)
    order, the order [reshape] keeps. *)
Record ndarray := mk_ndarray { shape : Z * Z; flat : list Z }.

Definition fits_intp (d : Z) : bool :=
  (Struct.PY_SSIZE_T_MIN <=? d) && (d <=? Struct.PY_SSIZE_T_MAX).

(** The message goes on with the size and the shape asked for. *)
Definition mismatch : PyExn := ValueError "cannot reshape array".

(** The message goes on: the size times the item size is larger than the
    maximum possible size. *)
Definition too_big : PyExn := ValueError "array is too big".

(** The bytes of one element: a tuple of Python integers becomes an array
    of 64-bit integers, the empty tuple one of 64-bit floats. *)
Definition itemsize : Z := 8.

(** The size check made when an array object is built: the item size
    times the dimensions, the zero ones left out, has to fit the signed
    size type. *)
Definition nonzero (d : Z) : Z := if d =? 0 then 1 else d.

Definition array_bytes (d0 d1 : Z) : Z := itemsize * nonzero d0 * nonzero d1.

Definition new_array (d0 d1 : Z) (t : list Z) : result ndarray :=
  if Struct.PY_SSIZE_T_MAX <? array_bytes d0 d1 then Raise too_big
  else Ok (mk_ndarray (d0, d1) t).

(** [np.array(t).reshape((d0, d1))].  [np.array] builds the
    one-dimensional array of the elements [t]; [reshape] converts the two
    entries of the shape, infers a negative one (only one may be), checks
    that the sizes agree and builds the two-dimensional array. *)
Definition reshape (t : list Z) (d0 d1 : Z) : result ndarray :=
  let size := Z.of_nat (List.length t) in
  if Struct.PY_SSIZE_T_MAX <? itemsize * size then Raise too_big
  else if negb (fits_intp d0 && fits_intp d1)
  then Raise (ValueError "Maximum allowed dimension exceeded")
  else if (d0 <? 0) && (d1 <? 0)
  then Raise (ValueError "can only specify one unknown dimension")
  else if d0 <? 0 then
    if (d1 =? 0) || negb (size mod d1 =? 0) then Raise mismatch
    else new_array (size / d1) d1 t
  else if d1 <? 0 then
    if (d0 =? 0) || negb (size mod d0 =? 0) then Raise mismatch
    else new_array d0 (size / d0) t
  else if d0 * d1 =? size then new_array d0 d1 t
  else Raise mismatch.

Fixpoint chunks (n width : nat) (l : list Z) : list (list Z) :=
  match n with
  | O => []
  | S n' => firstn width l :: chunks n' width (skipn width l)
  end.

(** [a.tolist()]: [d0] rows of [d1] elements each. *)
Definition tolist (a : ndarray) : list (list Z) :=
  chunks (Z.to_nat (fst (shape a))) (Z.to_nat (snd (shape a))) (flat a).

(** [np.array(rows)] for a rectangular nested list: the grid written out
    row by row. *)
Definition array_of_rows (rows : list (list Z)) : ndarray :=
  mk_ndarray (Z.of_nat (List.length rows),
              Z.of_nat (List.length (hd [] rows)))
             (List.concat rows).

End Numpy.

(* ------------------------------------------------------------------------- *)
(** ** The cells of the image unpacker

<<
offset = (meta['^IMAGE']-1) * meta['RECORD_BYTES']

rows = meta['IMAGE']['LINES']
cols = meta['IMAGE']['LINE_SAMPLES']
samples = rows * cols

data = struct.unpack_from('<%dH' % samples, zip.open(data_file).read(), offset)
data = np.array(data).reshape((cols, rows))
>> *)

Module Notebook.

Import Numpy.

(** The four integers the cells take from the parsed label. *)
Record Meta := mk_Meta {
  IMAGE_pointer : Z;   (* meta['^IMAGE'] *)
  RECORD_BYTES : Z;    (* meta['RECORD_BYTES'] *)
  LINES : Z;           (* meta['IMAGE']['LINES'] *)
  LINE_SAMPLES : Z     (* meta['IMAGE']['LINE_SAMPLES'] *)
}.

(** What the name [data] can be bound to. *)
Inductive pyval :=
| Tuple (t : list Z)
| NDArray (a : ndarray).

(** The global names of the kernel the cells touch.  [zip], [data_file] and
    [meta] are bound by earlier cells; the others may still be unbound. *)
Record Globals := mk_Globals {
  v_zip : ZipFile.archive;
  v_data_file : str;
  v_meta : Meta;
  v_offset : option Z;
  v_rows : option Z;
  v_cols : option Z;
  v_samples : option Z;
  v_data : option pyval
}.

Definition set_offset (x : Z) (g : Globals) : Globals :=
  mk_Globals (v_zip g) (v_data_file g) (v_meta g)
             (Some x) (v_rows g) (v_cols g) (v_samples g) (v_data g).
Definition set_rows (x : Z) (g : Globals) : Globals :=
  mk_Globals (v_zip g) (v_data_file g) (v_meta g)
             (v_offset g) (Some x) (v_cols g) (v_samples g) (v_data g).
Definition set_cols (x : Z) (g : Globals) : Globals :=
  mk_Globals (v_zip g) (v_data_file g) (v_meta g)
             (v_offset g) (v_rows g) (Some x) (v_samples g) (v_data g).
Definition set_samples (x : Z) (g : Globals) : Globals :=
  mk_Globals (v_zip g) (v_data_file g) (v_meta g)
             (v_offset g) (v_rows g) (v_cols g) (Some x) (v_data g).
Definition set_data (x : pyval) (g : Globals) : Globals :=
  mk_Globals (v_zip g) (v_data_file g) (v_meta g)
             (v_offset g) (v_rows g) (v_cols g) (v_samples g) (Some x).

(** A cell: it runs on the globals, leaves them changed, and either
    finishes or raises. *)
Definition Cell (A : Type) := Globals -> result A * Globals.

Definition ret {A} (a : A) : Cell A := fun g => (Ok a, g).

Definition bindC {A B} (m : Cell A) (k : A -> Cell B) : Cell B :=
  fun g =>
    match m g with
    | (Ok a, g') => k a g'
    | (Raise e, g') => (Raise e, g')
    end.

(** The outcome of a library call. *)
Definition call {A} (r : result A) : Cell A := fun g => (r, g).

(** Reading a name: [NameError] when it is unbound. *)
Definition name {A} (n : string) (v : Globals -> option A) : Cell A :=
  fun g =>
    match v g with
    | Some a => (Ok a, g)
    | None => (Raise (NameError n), g)
    end.

Definition bound {A} (v : Globals -> A) : Cell A := fun g => (Ok (v g), g).

Definition assign (set : Globals -> Globals) : Cell unit :=
  fun g => (Ok tt, set g).

Declare Scope cell_scope.
Delimit Scope cell_scope with cell.
Notation "x <- m ;; k" := (bindC m (fun x => k))
  (at level 61, m at next level, right associativity) : cell_scope.
Notation "m ;; k" := (bindC m (fun _ => k))
  (at level 61, right associativity) : cell_scope.
Local Open Scope cell_scope.

Definition byte_offset (P R : Z) : Z := (P - 1) * R.

Definition offset_cell : Cell unit :=
  meta <- bound v_meta ;;
  assign (set_offset (byte_offset (IMAGE_pointer meta) (RECORD_BYTES meta))).

Definition samples_cell : Cell unit :=
  meta <- bound v_meta ;;
  assign (set_rows (LINES meta)) ;;
  assign (set_cols (LINE_SAMPLES meta)) ;;
  rows <- name "rows" v_rows ;;
  cols <- name "cols" v_cols ;;
  assign (set_samples (rows * cols)).

(** The arguments of [unpack_from] are evaluated left to right; the first
    statement binds [data] to the tuple, and the second reads that tuple
    back into [np.array] before [cols] and [rows] are looked up. *)
Definition data_cell : Cell unit :=
  samples <- name "samples" v_samples ;;
  zip <- bound v_zip ;;
  data_file <- bound v_data_file ;;
  f <- call (ZipFile.open zip data_file) ;;
  buffer <- call (ZipFile.read f) ;;
  offset <- name "offset" v_offset ;;
  t <- call (Struct.unpack_from samples buffer offset) ;;
  assign (set_data (Tuple t)) ;;
  cols <- name "cols" v_cols ;;
  rows <- name "rows" v_rows ;;
  a <- call (reshape t cols rows) ;;
  assign (set_data (NDArray a)).

(** The three cells in the order of the notebook. *)
Definition unpacker_cells : Cell unit :=
  offset_cell ;; samples_cell ;; data_cell.

Local Close Scope cell_scope.

(** The image unpacker as a function of the member's bytes and the four
    integers: what the three cells compute into [data]. *)
Definition image_unpacker (buffer : bytes) (P R L S : Z) : result ndarray :=
  t <- Struct.unpack_from (L * S) buffer (byte_offset P R) ;;
  reshape t S L.

(** Vocabulary of the round trip: the bytes of a sequence of samples. *)
Definition encode (samples : list Z) : bytes := flat_map Struct.pack_H samples.

Definition is_uint16 (v : Z) : Prop := 0 <= v < 65536.

(** A grid of unsigned 16-bit samples of shape [(S, L)], the shape the
    unpacker gives its result.  It is an array numpy can build: its
    dimensions pass the size check of [new_array]. *)
Definition uint16_grid (a : ndarray) (S L : Z) : Prop :=
  shape a = (S, L) /\
  0 <= S /\
  0 <= L /\
  array_bytes S L <= Struct.PY_SSIZE_T_MAX /\
  Z.of_nat (List.length (flat a)) = S * L /\
  Forall is_uint16 (flat a).

(** The globals after the first two cells, which cannot raise. *)
Definition after_label_cells (g : Globals) : Globals :=
  let m := v_meta g in
  set_samples (LINES m * LINE_SAMPLES m)
    (set_cols (LINE_SAMPLES m)
       (set_rows (LINES m)
          (set_offset (byte_offset (IMAGE_pointer m) (RECORD_BYTES m)) g))).

(** The unpacker on the label fields of the globals. *)
Definition unpack_meta (buffer : bytes) (m : Meta) : result ndarray :=
  image_unpacker buffer (IMAGE_pointer m) (RECORD_BYTES m)
                 (LINES m) (LINE_SAMPLES m).

(** The buffer of the worked example: 10, 20, 30, 40 as little-endian
    unsigned 16-bit integers. *)
Definition example_buffer : bytes :=
  [x0a; x00; x14; x00; x1e; x00; x28; x00].

End Notebook.

(* ------------------------------------------------------------------------- *)
(** ** Concrete listings, members and globals used below *)

Module Examples.

Import Notebook.

Definition image : str := lit "ROS_CAM/DATA/N2007.IMG".
Definition browse : str := lit "ROS_CAM/BROWSE/N2007.JPG".
Definition browse' : str := lit "ROS_CAM/BROWSE/N2008.JPG".
Definition catalog : str := lit "ROS_CAM/CATALOG/INFO.TXT".
Definition document : str := lit "ROS_CAM/DOCUMENT/README.TXT".
Definition readme : str := lit "README.TXT".

(** The one [DATA] path is the last entry. *)
Definition image_last : list str := [browse; image].

(** No [DATA] path; all paths have three components. *)
Definition no_image : list str := [browse'; browse].

(** No [DATA] path, and a bare file name before the last entry. *)
Definition no_image_bare : list str := [readme; browse].

(** A [DATA] path, and a bare file name before the last entry. *)
Definition image_bare : list str := [readme; image; browse].

(** A member with one line and no sentinel. *)
Definition unterminated : bytes := blit "A = 1" ++ [ZipFile.LF].

(** 2^63, one more than the largest [Py_ssize_t]. *)
Definition two_63 : Z := 9223372036854775808.

Definition zeros : bytes := [x00; x00; x00; x00; x00; x00; x00; x00].

(** A 3 x 2 grid, and a buffer that holds it at byte offset 4. *)
Definition grid32 : Numpy.ndarray :=
  Numpy.array_of_rows [[1; 2]; [3; 4]; [65535; 0]].

Definition buffer32 : bytes :=
  [xde; xad; xbe; xef] ++ encode (Numpy.flat grid32) ++ [xff].

(** Two kernels that agree on the member and the label and on nothing
    else. *)
Definition fresh_kernel : Globals :=
  mk_Globals [(image, ZipFile.intact example_buffer)] image (mk_Meta 1 0 2 2)
             None None None None None.

Definition used_kernel : Globals :=
  mk_Globals [(readme, ZipFile.intact []); (image, ZipFile.intact example_buffer)]
             image (mk_Meta 1 0 2 2)
             (Some 7) (Some 1) None (Some 9) (Some (Tuple [1; 2; 3])).

End Examples.

(* ------------------------------------------------------------------------- *)
(** ** The statistics cell, and further vocabulary

<<
data.min(), data.max(), data.mean()
>>

    The minimum and the maximum are integers; the mean is a float and is
    left out. *)

Module Stats.

Import Numpy.

Definition zero_size (reduction : string) : PyExn :=
  ValueError (String.append "zero-size array to reduction operation "
                (String.append reduction " which has no identity")).

(** [a.min()] *)
Definition amin (a : ndarray) : result Z :=
  match flat a with
  | [] => Raise (zero_size "minimum")
  | x :: rest => Ok (fold_left Z.min rest x)
  end.

(** [a.max()] *)
Definition amax (a : ndarray) : result Z :=
  match flat a with
  | [] => Raise (zero_size "maximum")
  | x :: rest => Ok (fold_left Z.max rest x)
  end.

(** The first two components of the tuple, in evaluation order. *)
Definition min_max (a : ndarray) : result (Z * Z) :=
  lo <- amin a ;;
  hi <- amax a ;;
  Ok (lo, hi).

End Stats.

Module Vocabulary.

Import Reader.

(** A path component as a zip name has them: no slash in it. *)
Definition slash_free (s : str) : Prop := ~ In PurePath.slash s.

(** A name for a directory of the top level, [top/], or a bare file name. *)
Definition top_level (file : str) : Prop :=
  slash_free file \/
  exists top, slash_free top /\ file = top ++ [PurePath.slash].

(** What the loop appends for one raw line: its trimmed text, unless that
    is empty. *)
Definition kept (raw : bytes) : list str :=
  match Utf8.decode raw with
  | Ok line => if str_eqb (strip line) [] then [] else [strip line]
  | Raise _ => []
  end.

(** What the loop has appended after the first [k] lines of the stream. *)
Fixpoint label_lines (k : nat) (f : bytes) : list str :=
  match k with
  | O => []
  | S k' =>
      kept (fst (ZipFile.readline f))
      ++ label_lines k' (snd (ZipFile.readline f))
  end.

(** The first [k] lines are UTF-8 and none of them is the sentinel. *)
Definition label_body (k : nat) (f : bytes) : Prop :=
  forall i, (i < k)%nat ->
    decodes (nth_line i f) = true /\ is_END (nth_line i f) = false.

(** The two bytes of sample [i] of a window that starts at byte [off]. *)
Definition sample_at (buffer : bytes) (off i : nat) : Z :=
  Struct.uint16_le (nth (off + 2 * i) buffer x00)
                   (nth (off + 2 * i + 1) buffer x00).

(** The bytes [unpack_from] reads: [size] bytes from byte [off]. *)
Definition window (buffer : bytes) (off size : nat) : bytes :=
  firstn size (skipn off buffer).

(** An exception that is no [KeyError]. *)
Definition not_KeyError (e : PyExn) : Prop := forall key, e <> KeyError key.

(** The largest sample count a format can carry: half of
    [PY_SSIZE_T_MAX]. *)
Definition half_max : Z := 4611686018427387903.

(** The position [unpack_from] reads from: a negative offset counts from
    the end. *)
Definition start_of (buffer : bytes) (off : Z) : Z :=
  if off <? 0 then off + Z.of_nat (List.length buffer) else off.

End Vocabulary.

Module MoreExamples.

Import Examples Notebook.

Definition top_dir : str := lit "ROS_CAM/".
Definition data_dir : str := lit "ROS_CAM/DATA/".
Definition image' : str := lit "ROS_CAM/DATA/N2008.IMG".

(** A label line that is not UTF-8 before the sentinel. *)
Definition binary_label : bytes :=
  blit "A = 1" ++ [ZipFile.LF; xff; xfe; ZipFile.LF]
  ++ blit "END" ++ [ZipFile.LF].

(** The worked label in a member whose check sum does not match: the
    first eight bytes can be read, the read that needs more raises. *)
Definition damaged_image : ZipFile.member :=
  ZipFile.mk_member Reader.example_label
                    (ZipFile.FailsOnRead 8 ZipFile.BadCRC).

(** Ten bytes: two bytes of padding, then 10, 20, 30, 40. *)
Definition padded_buffer : bytes := [xaa; xbb] ++ example_buffer.

(** A kernel whose [data] is still bound to an earlier product and whose
    label asks for more samples than the member holds. *)
Definition stale_kernel : Globals :=
  mk_Globals [(image, ZipFile.intact example_buffer)] image (mk_Meta 1 0 3 2)
             (Some 7) (Some 1) (Some 1) (Some 9)
             (Some (NDArray (Numpy.array_of_rows [[1; 2]; [3; 4]]))).

End MoreExamples.

(* ========================================================================= *)
(** * Properties *)

(* ------------------------------------------------------------------------- *)
(** ** The label locator *)

Module LocatorFacts.

Import Locator Examples.

Lemma in_DATA_short (file : str) :
  (n_parts file < 2)%nat -> in_DATA file = Raise tuple_index_error.
Proof.
  unfold n_parts, in_DATA, index. intros Hlen.
  assert (Hnone : nth_error (PurePath.parts file) 1 = None)
    by (apply nth_error_None; lia).
  rewrite Hnone. reflexivity.
Qed.

Lemma second_is_DATA_long (file : str) :
  second_is_DATA file = true -> (2 <= n_parts file)%nat.
Proof.
  unfold second_is_DATA, n_parts.
  destruct (nth_error (PurePath.parts file) 1) as [c|] eqn:Hnth;
    [|discriminate].
  intros _.
  assert (Hlt : (1 < List.length (PurePath.parts file))%nat)
    by (apply nth_error_Some; rewrite Hnth; discriminate).
  lia.
Qed.

Lemma in_DATA_long (file : str) :
  (2 <= n_parts file)%nat -> in_DATA file = Ok (second_is_DATA file).
Proof.
  unfold n_parts, in_DATA, second_is_DATA, index. intros Hlen.
  destruct (nth_error (PurePath.parts file) 1) as [c|] eqn:Hnth.
  - reflexivity.
  - apply nth_error_None in Hnth. lia.
Qed.

(** One path with too few components makes the whole comprehension raise. *)
Lemma comprehension_short (files : list str) :
  Exists (fun file => (n_parts file < 2)%nat) files ->
  comprehension files = Raise tuple_index_error.
Proof.
  induction files as [|file rest IH]; intros Hex.
  - inversion Hex.
  - cbn [comprehension].
    destruct (Nat.ltb_spec (n_parts file) 2) as [Hs|Hl].
    + rewrite (in_DATA_short _ Hs). reflexivity.
    + rewrite (in_DATA_long _ Hl). cbn [bind].
      inversion Hex as [? ? Hhd|? ? Htl]; subst; [lia|].
      rewrite (IH Htl). reflexivity.
Qed.

(** Otherwise the comprehension is the filter it reads as. *)
Lemma comprehension_long (files : list str) :
  Forall (fun file => (2 <= n_parts file)%nat) files ->
  comprehension files = Ok (filter second_is_DATA files).
Proof.
  induction 1 as [|file rest Hl _ IH]; [reflexivity|].
  cbn [comprehension filter].
  rewrite (in_DATA_long _ Hl), IH. reflexivity.
Qed.

Lemma comprehension_cases (files : list str) :
  comprehension files = Raise tuple_index_error \/
  comprehension files = Ok (filter second_is_DATA files).
Proof.
  destruct (Exists_dec (fun file => (n_parts file < 2)%nat) files) as [Hex|Hno].
  - intros file. apply lt_dec.
  - left. apply comprehension_short, Hex.
  - right. apply comprehension_long.
    apply Forall_forall. intros file Hin.
    destruct (Nat.ltb_spec (n_parts file) 2) as [Hs|Hl]; [|exact Hl].
    exfalso. apply Hno. apply Exists_exists. exists file. split; assumption.
Qed.

Lemma removelast_snoc {A} (l : list A) (x : A) : removelast (l ++ [x]) = l.
Proof.
  induction l as [|a l IH]; [reflexivity|].
  cbn [app removelast]. rewrite IH.
  destruct (l ++ [x]) eqn:E; [|reflexivity].
  destruct l; discriminate.
Qed.

Lemma In_removelast {A} (l : list A) (x : A) : In x (removelast l) -> In x l.
Proof.
  induction l as [|a l IH]; [intros []|].
  cbn [removelast]. destruct l as [|b l]; [intros []|].
  intros [->|Hin]; [left; reflexivity|right; apply IH, Hin].
Qed.

Lemma filter_none {A} (f : A -> bool) (l : list A) :
  (forall x, In x l -> f x = false) -> filter f l = [].
Proof.
  induction l as [|a l IH]; intros H; [reflexivity|].
  cbn [filter]. rewrite (H a (or_introl eq_refl)).
  apply IH. intros x Hx. apply H. right. exact Hx.
Qed.

(** C4, as the spec states it, fails on the code: the listing below has
    exactly one path whose component of index 1 is [DATA], and the locator
    raises instead of returning it, because that path is the last entry and
    [zipfiles[:-1]] leaves the last entry out of the scan. *)
Lemma locator_skips_last_entry :
  filter second_is_DATA image_last = [image] /\
  data_file image_last = Raise (IndexError "list index out of range") /\
  data_file image_last <> Ok image.
Proof.
  split; [|split]; [vm_compute; reflexivity ..|].
  intros H. vm_compute in H. discriminate H.
Qed.

(** C4, amended: when every entry other than the last has at least two
    components and exactly one entry other than the last has [DATA] as its
    component of index 1, the locator returns that entry, wherever among
    the entries before the last it stands. *)
Theorem locator_returns_DATA_entry (before after : list str) (file last : str) :
  second_is_DATA file = true ->
  (forall other, In other (before ++ after) ->
     (2 <= n_parts other)%nat /\ second_is_DATA other = false) ->
  data_file (before ++ file :: after ++ [last]) = Ok file.
Proof.
  intros Hfile Hothers. unfold data_file.
  pose proof (second_is_DATA_long file Hfile) as Hlen.
  replace (before ++ file :: after ++ [last])
    with ((before ++ file :: after) ++ [last])
    by (rewrite <- app_assoc; reflexivity).
  rewrite removelast_snoc.
  rewrite comprehension_long.
  - rewrite filter_app. cbn [filter]. rewrite Hfile.
    rewrite (filter_none second_is_DATA before), (filter_none second_is_DATA after).
    + reflexivity.
    + intros x Hx. apply Hothers, in_or_app. right. exact Hx.
    + intros x Hx. apply Hothers, in_or_app. left. exact Hx.
  - apply Forall_forall. intros x Hx.
    apply in_app_or in Hx. destruct Hx as [Hx|[<-|Hx]].
    + apply Hothers, in_or_app. left. exact Hx.
    + exact Hlen.
    + apply Hothers, in_or_app. right. exact Hx.
Qed.

Lemma locator_returns_DATA_entry_witness :
  data_file [catalog; image; document; browse] = Ok image.
Proof.
  apply (locator_returns_DATA_entry [catalog] [document] image browse).
  - vm_compute. reflexivity.
  - intros other [<-|[<-|[]]]; split; vm_compute; try reflexivity; lia.
Defined.

(** C5, as the spec states it, fails on the code: a listing with no [DATA]
    path makes the locator raise the built-in [IndexError] of an empty list,
    and the error of one such listing is, value for value, the error of a
    listing that does hold a [DATA] path: there is no error of its own for
    a missing label source. *)
Lemma locator_not_found_is_IndexError :
  filter second_is_DATA no_image = [] /\
  data_file no_image = Raise (IndexError "list index out of range") /\
  filter second_is_DATA no_image_bare = [] /\
  filter second_is_DATA image_bare = [image] /\
  data_file no_image_bare = Raise (IndexError "tuple index out of range") /\
  data_file no_image_bare = data_file image_bare.
Proof.
  repeat split; vm_compute; reflexivity.
Qed.

(** C5, amended: for every zip listing with no path whose component of
    index 1 is [DATA], the locator fails, and the failure is Python's
    built-in [IndexError]. *)
Theorem locator_without_DATA_raises_IndexError (zipfiles : list str) :
  (forall file, In file zipfiles -> second_is_DATA file = false) ->
  exists msg, data_file zipfiles = Raise (IndexError msg).
Proof.
  intros Hnone. unfold data_file.
  destruct (comprehension_cases (removelast zipfiles)) as [E|E]; rewrite E.
  - eexists. reflexivity.
  - rewrite filter_none.
    + eexists. reflexivity.
    + intros x Hx. apply Hnone, In_removelast, Hx.
Qed.

Lemma locator_without_DATA_raises_IndexError_witness :
  exists msg, data_file no_image = Raise (IndexError msg).
Proof.
  apply (locator_without_DATA_raises_IndexError no_image).
  intros file [<-|[<-|[]]]; vm_compute; reflexivity.
Defined.

(** C10: if an entry other than the last has fewer than two path
    components, the locator raises the [IndexError] of [parts[1]], whatever
    else the listing holds -- a [DATA] entry included. *)
Theorem locator_short_path_raises (zipfiles : list str) (bare : str) :
  In bare (removelast zipfiles) ->
  (n_parts bare < 2)%nat ->
  data_file zipfiles = Raise (IndexError "tuple index out of range").
Proof.
  intros Hin Hshort. unfold data_file.
  rewrite comprehension_short; [reflexivity|].
  apply Exists_exists. exists bare. split; assumption.
Qed.

Lemma locator_short_path_raises_witness :
  second_is_DATA image = true /\
  data_file image_bare = Raise (IndexError "tuple index out of range").
Proof.
  split; [vm_compute; reflexivity|].
  apply (locator_short_path_raises image_bare readme).
  - vm_compute. left. reflexivity.
  - vm_compute. lia.
Defined.

End LocatorFacts.

(* ------------------------------------------------------------------------- *)
(** ** The label reader *)

Module ReaderFacts.

Import Reader Examples.

Lemma nth_line_nil (n : nat) : nth_line n [] = [].
Proof. induction n as [|n IH]; [reflexivity|exact IH]. Qed.

Lemma decode_raises (raw : bytes) (e : PyExn) :
  Utf8.decode raw = Raise e -> e = UnicodeDecodeError.
Proof.
  unfold Utf8.decode.
  destruct (Utf8.decode_points _); intros H; inversion H; reflexivity.
Qed.

(** On a sound stream [f.readline().decode('utf8')] splits off the next
    line of the bytes and decodes it. *)
Lemma next_line_whole (f : bytes) :
  next_line (ZipFile.whole f)
  = (line <- Utf8.decode (fst (ZipFile.readline f)) ;;
     Ok (line, ZipFile.whole (snd (ZipFile.readline f)))).
Proof.
  unfold next_line, ZipFile.stream_readline, ZipFile.whole.
  cbn [ZipFile.pending ZipFile.fault].
  destruct (ZipFile.readline f) as [raw rest]. reflexivity.
Qed.

(** What [f.readline().decode('utf8')] gives on a member with no sentinel
    line: a decoding error, or a line that is not the sentinel and a stream
    that still has no sentinel line. *)
Lemma next_line_no_END (f : bytes) :
  no_END_line f ->
  next_line (ZipFile.whole f) = Raise UnicodeDecodeError \/
  exists line f',
    next_line (ZipFile.whole f) = Ok (line, ZipFile.whole f') /\
    str_eqb (strip line) END = false /\
    no_END_line f'.
Proof.
  intros Hno. rewrite next_line_whole.
  pose proof (Hno O) as H0. cbn [nth_line] in H0. unfold is_END in H0.
  destruct (ZipFile.readline f) as [raw f'] eqn:Hrl. cbn [fst snd] in *.
  destruct (Utf8.decode raw) as [line|e] eqn:Hdec.
  - right. exists line, f'. cbn [bind]. repeat split; [exact H0|].
    intros n. specialize (Hno (S n)). cbn [nth_line] in Hno.
    rewrite Hrl in Hno. exact Hno.
  - left. cbn [bind]. rewrite (decode_raises _ _ Hdec). reflexivity.
Qed.

Lemma next_line_decodes (f : bytes) :
  all_lines_decode f ->
  exists line f',
    next_line (ZipFile.whole f) = Ok (line, ZipFile.whole f') /\
    all_lines_decode f'.
Proof.
  intros Hall. rewrite next_line_whole.
  pose proof (Hall O) as H0. cbn [nth_line] in H0. unfold decodes in H0.
  destruct (ZipFile.readline f) as [raw f'] eqn:Hrl. cbn [fst snd] in *.
  destruct (Utf8.decode raw) as [line|e] eqn:Hdec; [|discriminate H0].
  exists line, f'. split; [reflexivity|].
  intros n. specialize (Hall (S n)). cbn [nth_line] in Hall.
  rewrite Hrl in Hall. exact Hall.
Qed.

(** The loop on a member with no sentinel line never leaves by its
    condition: it runs on, or a line fails to decode. *)
Lemma while_loop_no_END (fuel : nat) :
  forall f line label,
    str_eqb (strip line) END = false ->
    no_END_line f ->
    while_loop fuel (ZipFile.whole f) line label = None \/
    while_loop fuel (ZipFile.whole f) line label
    = Some (Raise UnicodeDecodeError).
Proof.
  induction fuel as [|fuel IH]; intros f line label Hline Hno; [left; reflexivity|].
  cbn [while_loop]. rewrite Hline. cbn [negb].
  destruct (next_line_no_END f Hno) as [E|(line' & f' & E & Hline' & Hno')];
    rewrite E.
  - destruct (str_eqb (strip line) []); right; reflexivity.
  - destruct (str_eqb (strip line) []); apply IH; assumption.
Qed.

Lemma while_loop_diverges (fuel : nat) :
  forall f line label,
    str_eqb (strip line) END = false ->
    no_END_line f ->
    all_lines_decode f ->
    while_loop fuel (ZipFile.whole f) line label = None.
Proof.
  induction fuel as [|fuel IH]; intros f line label Hline Hno Hall; [reflexivity|].
  cbn [while_loop]. rewrite Hline. cbn [negb].
  destruct (next_line_decodes f Hall) as (line' & f' & E & Hall').
  destruct (next_line_no_END f Hno) as [E'|(line2 & f2 & E' & Hline' & Hno')];
    rewrite E in E'; [discriminate E'|].
  injection E' as <- <-. rewrite E.
  destruct (str_eqb (strip line) []); apply IH; assumption.
Qed.

(** C2, what the code does: on a sound member that has no line whose
    trimmed text is [END], [read_label] never returns a label and never
    reports a malformed label.  Whatever the fuel, the loop is still
    running when it is spent, unless a line failed to decode; and when
    every line of the member is UTF-8 it is always still running: at the
    end of the member [readline] hands out empty lines, which the loop
    skips for ever. *)
Theorem read_label_without_END_never_returns
  (zip : ZipFile.archive) (data_file : str) (f : bytes) :
  ZipFile.open zip data_file = Ok (ZipFile.whole f) ->
  no_END_line f ->
  (forall fuel,
     read_label fuel zip data_file = None \/
     read_label fuel zip data_file = Some (Raise UnicodeDecodeError)) /\
  (all_lines_decode f -> forall fuel, read_label fuel zip data_file = None).
Proof.
  intros Hopen Hno. unfold read_label, read_stream. rewrite Hopen. split.
  - intros fuel.
    destruct (next_line_no_END f Hno) as [E|(line & f' & E & Hline & Hno')];
      rewrite E; [right; reflexivity|].
    destruct (while_loop_no_END fuel f' line [] Hline Hno') as [W|W];
      rewrite W; [left|right]; reflexivity.
  - intros Hall fuel.
    destruct (next_line_decodes f Hall) as (line & f' & E & Hall').
    destruct (next_line_no_END f Hno) as [E'|(line2 & f2 & E' & Hline & Hno')];
      rewrite E in E'; [discriminate E'|].
    injection E' as <- <-. rewrite E.
    rewrite (while_loop_diverges fuel f' line [] Hline Hno' Hall').
    reflexivity.
Qed.

Lemma read_label_without_END_never_returns_witness :
  read_label 1000 [(image, ZipFile.intact unterminated)] image = None.
Proof.
  refine (proj2 (read_label_without_END_never_returns
                   [(image, ZipFile.intact unterminated)] image unterminated
                   _ _)
                _ 1000%nat).
  - vm_compute. reflexivity.
  - intros [|n]; [vm_compute; reflexivity|].
    cbn [nth_line]. change (snd _) with (@nil byte).
    rewrite nth_line_nil. vm_compute. reflexivity.
  - intros [|n]; [vm_compute; reflexivity|].
    cbn [nth_line]. change (snd _) with (@nil byte).
    rewrite nth_line_nil. vm_compute. reflexivity.
Defined.

(** C8: on a sound member that starts with the lines [A = 1], [B = 2], an
    empty line and [END], the reader returns the twelve characters
    [A = 1], carriage return, line feed, [B = 2]: the two trimmed lines
    joined with CRLF.  The empty line is not part of the result, nor is
    the sentinel, nor anything that follows it in the member.  The loop
    condition is evaluated four times, once for each of the four lines:
    it is still running after fewer, so it goes past the empty line and
    stops at the sentinel, not before. *)
Theorem read_label_example
  (zip : ZipFile.archive) (data_file : str) (rest : bytes) :
  ZipFile.open zip data_file = Ok (ZipFile.whole (example_label ++ rest)) ->
  (forall fuel, (fuel < 4)%nat -> read_label fuel zip data_file = None) /\
  (forall more,
     read_label (4 + more) zip data_file
     = Some (Ok [65%N; 32%N; 61%N; 32%N; 49%N; 13%N; 10%N;
                 66%N; 32%N; 61%N; 32%N; 50%N])).
Proof.
  intros Hopen. unfold read_label. rewrite Hopen. split.
  - intros fuel Hfuel.
    destruct fuel as [|[|[|[|fuel]]]]; [vm_compute; reflexivity ..|lia].
  - intros more. vm_compute. reflexivity.
Qed.

Lemma read_label_example_witness :
  read_label 3 [(image, ZipFile.intact (example_label ++ [xff; x00; x45]))]
             image
  = None /\
  read_label 4 [(image, ZipFile.intact (example_label ++ [xff; x00; x45]))]
             image
  = Some (Ok [65%N; 32%N; 61%N; 32%N; 49%N; 13%N; 10%N;
              66%N; 32%N; 61%N; 32%N; 50%N]).
Proof.
  destruct (read_label_example
              [(image, ZipFile.intact (example_label ++ [xff; x00; x45]))]
              image [xff; x00; x45]) as [Hless Hfour].
  - vm_compute. reflexivity.
  - split; [apply Hless; lia|apply (Hfour 0%nat)].
Defined.

End ReaderFacts.

(* ------------------------------------------------------------------------- *)
(** ** The image unpacker *)

Module UnpackerFacts.

Import Struct Numpy Notebook Examples.

(** *** Samples and their two bytes *)

Lemma to_N_byte_of_Z (v : Z) : Byte.to_N (byte_of_Z v) = Z.to_N (v mod 256).
Proof.
  unfold byte_of_Z.
  destruct (Byte.of_N (Z.to_N (v mod 256))) as [b|] eqn:E.
  - apply Byte.to_of_N, E.
  - apply Byte.of_N_None_iff in E.
    pose proof (Z.mod_pos_bound v 256 eq_refl) as Hb. lia.
Qed.

Lemma uint16_le_pack (v : Z) :
  is_uint16 v -> uint16_le (byte_of_Z v) (byte_of_Z (v / 256)) = v.
Proof.
  unfold is_uint16, uint16_le. intros Hv.
  rewrite !to_N_byte_of_Z.
  pose proof (Z.mod_pos_bound v 256 eq_refl) as Hlo.
  assert (Hhi : 0 <= v / 256 < 256).
  { split; [apply Z.div_pos; lia|apply Z.div_lt_upper_bound; lia]. }
  rewrite (Z.mod_small (v / 256) 256 Hhi).
  rewrite !Z2N.id by lia.
  pose proof (Z.div_mod v 256 ltac:(lia)). lia.
Qed.

Lemma length_encode (l : list Z) :
  List.length (encode l) = (2 * List.length l)%nat.
Proof.
  induction l as [|v l IH]; [reflexivity|].
  cbn [encode flat_map pack_H app List.length] in *.
  fold (encode l). rewrite IH. lia.
Qed.

Lemma unpack_H_encode (l : list Z) (suffix : bytes) :
  Forall is_uint16 l ->
  unpack_H (List.length l) (encode l ++ suffix) = l.
Proof.
  induction 1 as [|v l Hv _ IH]; [reflexivity|].
  cbn [encode flat_map pack_H app List.length unpack_H].
  fold (encode l). rewrite IH, (uint16_le_pack v Hv). reflexivity.
Qed.

Lemma skipn_prefix {A} (prefix rest : list A) :
  skipn (List.length prefix) (prefix ++ rest) = rest.
Proof. induction prefix as [|x prefix IH]; [reflexivity|exact IH]. Qed.

(** *** The array *)

Lemma nonzero_bounds (d : Z) : 0 <= d -> 1 <= nonzero d /\ d <= nonzero d.
Proof.
  unfold nonzero. intros Hd. destruct (Z.eqb_spec d 0); lia.
Qed.

(** [reshape] to a shape whose entries are not negative, pass the size
    check and multiply to the number of elements. *)
Lemma reshape_of_shape (t : list Z) (d0 d1 : Z) :
  0 <= d0 -> 0 <= d1 ->
  array_bytes d0 d1 <= PY_SSIZE_T_MAX ->
  Z.of_nat (List.length t) = d0 * d1 ->
  reshape t d0 d1 = Ok (mk_ndarray (d0, d1) t).
Proof.
  intros H0 H1 Hbytes Hsize.
  destruct (nonzero_bounds d0 H0) as [Hn0 Hd0].
  destruct (nonzero_bounds d1 H1) as [Hn1 Hd1].
  unfold array_bytes, itemsize in Hbytes.
  assert (Hprod : d0 * d1 <= nonzero d0 * nonzero d1) by nia.
  assert (Hone0 : nonzero d0 <= nonzero d0 * nonzero d1) by nia.
  assert (Hone1 : nonzero d1 <= nonzero d0 * nonzero d1) by nia.
  assert (T1 : (PY_SSIZE_T_MAX <? itemsize * Z.of_nat (List.length t)) = false).
  { apply Z.ltb_ge. unfold itemsize. lia. }
  assert (T2 : fits_intp d0 = true).
  { unfold fits_intp, PY_SSIZE_T_MIN.
    apply andb_true_intro. split; apply Z.leb_le; lia. }
  assert (T3 : fits_intp d1 = true).
  { unfold fits_intp, PY_SSIZE_T_MIN.
    apply andb_true_intro. split; apply Z.leb_le; lia. }
  assert (T4 : (d0 <? 0) = false) by (apply Z.ltb_ge; lia).
  assert (T5 : (d1 <? 0) = false) by (apply Z.ltb_ge; lia).
  assert (T6 : (d0 * d1 =? Z.of_nat (List.length t)) = true)
    by (apply Z.eqb_eq; lia).
  assert (T7 : (PY_SSIZE_T_MAX <? array_bytes d0 d1) = false).
  { apply Z.ltb_ge. unfold array_bytes, itemsize. lia. }
  unfold reshape, new_array.
  rewrite T1, T2, T3, T4, T5, T6, T7. reflexivity.
Qed.

(** *** The cells and the function *)

(** What running the three cells does to the globals, in terms of the two
    library calls of the last cell. *)
Lemma unpacker_cells_run (g : Globals) (buffer : bytes) :
  ZipFile.open (v_zip g) (v_data_file g) = Ok (ZipFile.whole buffer) ->
  let m := v_meta g in
  let g2 := after_label_cells g in
  unpacker_cells g =
  match unpack_from (LINES m * LINE_SAMPLES m) buffer
                    (byte_offset (IMAGE_pointer m) (RECORD_BYTES m)) with
  | Raise e => (Raise e, g2)
  | Ok t =>
      match reshape t (LINE_SAMPLES m) (LINES m) with
      | Raise e => (Raise e, set_data (Tuple t) g2)
      | Ok a => (Ok tt, set_data (NDArray a) (set_data (Tuple t) g2))
      end
  end.
Proof.
  intros Hopen. cbv zeta.
  unfold unpacker_cells, offset_cell, samples_cell, data_cell,
    bindC, bound, assign, name, call, after_label_cells.
  cbn. rewrite Hopen. cbn.
  destruct (unpack_from _ _ _) as [t|e]; [|reflexivity].
  cbn. destruct (reshape _ _ _) as [a|e]; reflexivity.
Qed.

Lemma unpacker_cells_outcome (g : Globals) (buffer : bytes) :
  ZipFile.open (v_zip g) (v_data_file g) = Ok (ZipFile.whole buffer) ->
  match unpack_meta buffer (v_meta g) with
  | Ok a =>
      fst (unpacker_cells g) = Ok tt /\
      v_data (snd (unpacker_cells g)) = Some (NDArray a)
  | Raise e => fst (unpacker_cells g) = Raise e
  end /\
  v_zip (snd (unpacker_cells g)) = v_zip g /\
  v_data_file (snd (unpacker_cells g)) = v_data_file g /\
  v_meta (snd (unpacker_cells g)) = v_meta g.
Proof.
  intros Hopen. rewrite (unpacker_cells_run g buffer Hopen).
  unfold unpack_meta, image_unpacker.
  destruct (unpack_from _ _ _) as [t|e]; cbn [bind].
  - destruct (reshape _ _ _) as [a|e]; cbn; repeat split; reflexivity.
  - cbn. repeat split; reflexivity.
Qed.

(** *** The claims *)

Ltac split_ltb :=
  repeat match goal with
         | |- context [Z.ltb ?a ?b] => destruct (Z.ltb_spec a b)
         end;
  cbn [orb andb negb bind].

(** C1, as the spec states it, fails on the code: the grid returned for
    the worked example is not [[10,30],[20,40]]. *)
Lemma unpacker_example_is_not_column_major :
  image_unpacker example_buffer 1 0 2 2
  <> Ok (array_of_rows [[10; 30]; [20; 40]]).
Proof. vm_compute. intros H. discriminate H. Qed.

(** C1, amended: for the buffer holding 10, 20, 30, 40 at offset 0, with
    P = 1, R = 0, L = 2 and S = 2, the returned grid is [[10,20],[30,40]]:
    [reshape] lays the flat sample sequence into the (S, L)-shaped grid in
    row-major order. *)
Theorem unpacker_example_is_row_major :
  image_unpacker example_buffer 1 0 2 2
  = Ok (array_of_rows [[10; 20]; [30; 40]]) /\
  tolist (array_of_rows [[10; 20]; [30; 40]]) = [[10; 20]; [30; 40]].
Proof. split; vm_compute; reflexivity. Qed.

(** C3, as the spec states it, fails on the code.  With a record size of
    2^63 the required bytes exceed the empty buffer and the call raises
    [OverflowError], which is no decoding error; and with a negative row
    count the [struct.error] raised when the required bytes exceed the
    buffer is the very error raised when they do not. *)
Lemma truncated_error_is_not_distinct :
  Z.of_nat (List.length (@nil byte)) < byte_offset 2 two_63 + 2 * (1 * 1) /\
  image_unpacker [] 2 two_63 1 1
  = Raise (OverflowError "Python int too large to convert to C ssize_t") /\
  Z.of_nat (List.length (@nil byte)) < byte_offset 2 10 + 2 * (-1 * 1) /\
  byte_offset 1 0 + 2 * (-1 * 1) <= Z.of_nat (List.length zeros) /\
  image_unpacker [] 2 10 (-1) 1 = Raise (StructError BadCharInFormat) /\
  image_unpacker zeros 1 0 (-1) 1 = Raise (StructError BadCharInFormat).
Proof. repeat split; vm_compute; congruence. Qed.

(** C3, amended: whenever (P-1)*R + 2*L*S exceeds the length of the
    buffer, the unpacker returns no grid.  It raises [struct.error], the
    one error class of the [struct] module, or, when the offset is beyond
    the largest [Py_ssize_t], [OverflowError]. *)
Theorem truncated_buffer_raises (buffer : bytes) (P R L S : Z) :
  Z.of_nat (List.length buffer) < byte_offset P R + 2 * (L * S) ->
  (exists msg, image_unpacker buffer P R L S = Raise (StructError msg)) \/
  (PY_SSIZE_T_MAX < byte_offset P R /\
   exists msg, image_unpacker buffer P R L S = Raise (OverflowError msg)).
Proof.
  unfold image_unpacker, unpack_from.
  change (PY_SSIZE_T_MAX / 2) with 4611686018427387903.
  unfold PY_SSIZE_T_MIN, PY_SSIZE_T_MAX.
  generalize (byte_offset P R) (L * S) (Z.of_nat (List.length buffer))
             (Nat2Z.is_nonneg (List.length buffer)).
  intros off count len Hlen Htrunc.
  split_ltb;
    try (left; eexists; reflexivity);
    try (right; split; [lia|eexists; reflexivity]);
    exfalso; lia.
Qed.

Lemma truncated_buffer_raises_witness :
  (exists msg,
     image_unpacker example_buffer 3 100 2 2 = Raise (StructError msg)) \/
  (PY_SSIZE_T_MAX < byte_offset 3 100 /\
   exists msg,
     image_unpacker example_buffer 3 100 2 2 = Raise (OverflowError msg)).
Proof.
  apply (truncated_buffer_raises example_buffer 3 100 2 2).
  vm_compute. reflexivity.
Defined.

(** C6: a grid of unsigned 16-bit samples of shape (S, L), written out
    sample by sample as two little-endian bytes at byte offset (P-1)*R of a
    buffer, is what the unpacker returns for that buffer and the same P, R,
    L and S.  The grid is an array numpy can build (its dimensions pass
    the size check), and the buffer is a [bytes] object: its length is at
    most [PY_SSIZE_T_MAX]. *)
Theorem unpack_encode_roundtrip
  (a : ndarray) (P R L S : Z) (prefix suffix : bytes) :
  uint16_grid a S L ->
  Z.of_nat (List.length prefix) = byte_offset P R ->
  Z.of_nat (List.length (prefix ++ encode (flat a) ++ suffix))
    <= PY_SSIZE_T_MAX ->
  image_unpacker (prefix ++ encode (flat a) ++ suffix) P R L S = Ok a.
Proof.
  intros (Hshape & HS & HL & Hbytes & Hsize & Hvals) Hoff Hfits.
  destruct a as [sh samples]. cbn [shape flat] in *. subst sh.
  unfold image_unpacker.
  assert (Hunpack :
    unpack_from (L * S) (prefix ++ encode samples ++ suffix) (byte_offset P R)
    = Ok samples).
  { unfold unpack_from.
    change (PY_SSIZE_T_MAX / 2) with 4611686018427387903.
    rewrite <- Hoff. replace (L * S) with (Z.of_nat (List.length samples)) by lia.
    revert Hfits. rewrite !length_app, length_encode.
    unfold PY_SSIZE_T_MIN, PY_SSIZE_T_MAX. intros Hfits.
    split_ltb; try lia;
      rewrite !Nat2Z.id, skipn_prefix, unpack_H_encode by assumption;
      reflexivity. }
  rewrite Hunpack. cbn [bind].
  apply reshape_of_shape; assumption.
Qed.

Lemma unpack_encode_roundtrip_witness :
  image_unpacker buffer32 3 2 2 3 = Ok grid32.
Proof.
  apply (unpack_encode_roundtrip grid32 3 2 2 3 [xde; xad; xbe; xef] [xff]).
  - unfold uint16_grid, is_uint16, grid32. cbn [array_of_rows shape flat].
    repeat split; try (vm_compute; congruence).
    repeat constructor; lia.
  - vm_compute. reflexivity.
  - vm_compute. congruence.
Defined.

(** C7: the byte offset the cells compute is (P - 1) * R whatever the row
    and column counts (and whatever else the globals hold); for P = 3 and
    R = 100 it is 200. *)
Theorem offset_is_pointer_times_record_bytes
  (zip : ZipFile.archive) (data_file : str) (P R L S : Z)
  (offset rows cols samples : option Z) (data : option pyval) :
  let g := mk_Globals zip data_file (mk_Meta P R L S)
                      offset rows cols samples data in
  fst (offset_cell g) = Ok tt /\
  v_offset (snd (offset_cell g)) = Some ((P - 1) * R) /\
  v_offset (snd (unpacker_cells g)) = Some ((P - 1) * R) /\
  byte_offset 3 100 = 200.
Proof.
  cbv zeta. repeat split.
  unfold unpacker_cells, offset_cell, samples_cell, data_cell,
    bindC, bound, assign, name, call.
  cbn.
  destruct (ZipFile.open zip data_file) as [f|e]; [|reflexivity].
  cbn. destruct (ZipFile.read f) as [buffer|e]; [|reflexivity].
  cbn. destruct (unpack_from _ _ _) as [t|e]; [|reflexivity].
  cbn. destruct (reshape _ _ _) as [a|e]; reflexivity.
Qed.

(** C9: the outcome of the unpacker cells is the function [image_unpacker]
    of the member's bytes and of P, R, L and S.  Two runs from globals that
    agree on these finish alike -- the same exception, or [data] bound to
    the same grid -- whatever the names [offset], [rows], [cols], [samples]
    and [data] were bound to before, and neither run changes the archive,
    the member name or the parsed label. *)
Theorem unpacker_is_function_of_inputs (g1 g2 : Globals) (buffer : bytes) :
  ZipFile.open (v_zip g1) (v_data_file g1) = Ok (ZipFile.whole buffer) ->
  ZipFile.open (v_zip g2) (v_data_file g2) = Ok (ZipFile.whole buffer) ->
  v_meta g1 = v_meta g2 ->
  fst (unpacker_cells g1) = fst (unpacker_cells g2) /\
  match unpack_meta buffer (v_meta g1) with
  | Ok a =>
      fst (unpacker_cells g1) = Ok tt /\
      v_data (snd (unpacker_cells g1)) = Some (NDArray a) /\
      v_data (snd (unpacker_cells g2)) = Some (NDArray a)
  | Raise e => fst (unpacker_cells g1) = Raise e
  end /\
  v_zip (snd (unpacker_cells g1)) = v_zip g1 /\
  v_data_file (snd (unpacker_cells g1)) = v_data_file g1 /\
  v_meta (snd (unpacker_cells g1)) = v_meta g1.
Proof.
  intros H1 H2 Hmeta.
  destruct (unpacker_cells_outcome g1 buffer H1) as (O1 & Z1 & D1 & M1).
  destruct (unpacker_cells_outcome g2 buffer H2) as (O2 & _).
  rewrite <- Hmeta in O2.
  destruct (unpack_meta buffer (v_meta g1)) as [a|e].
  - destruct O1 as [R1 V1]. destruct O2 as [R2 V2].
    repeat split; try assumption. rewrite R1, R2. reflexivity.
  - repeat split; try assumption. rewrite O1, O2. reflexivity.
Qed.

Lemma unpacker_is_function_of_inputs_witness :
  fst (unpacker_cells fresh_kernel) = fst (unpacker_cells used_kernel) /\
  v_data (snd (unpacker_cells fresh_kernel))
  = v_data (snd (unpacker_cells used_kernel)).
Proof.
  pose proof (unpacker_is_function_of_inputs
                fresh_kernel used_kernel example_buffer
                eq_refl eq_refl eq_refl) as (Hout & Hdata & _).
  split; [exact Hout|].
  assert (E : unpack_meta example_buffer (v_meta fresh_kernel)
              = Ok (array_of_rows [[10; 20]; [30; 40]]))
    by (vm_compute; reflexivity).
  rewrite E in Hdata.
  destruct Hdata as (_ & V1 & V2).
  rewrite V1, V2. reflexivity.
Defined.

End UnpackerFacts.

(* ------------------------------------------------------------------------- *)
(** ** More on the label locator *)

Module LocatorMore.

Import Locator Examples MoreExamples Vocabulary LocatorFacts.

(** *** Paths and their components *)

Lemma split_slash_free (sep : N) (s : str) :
  ~ In sep s -> split sep s = [s].
Proof.
  induction s as [|c s IH]; intros Hs; [reflexivity|].
  cbn [split].
  destruct (N.eqb_spec c sep) as [->|_]; [exfalso; apply Hs; left; reflexivity|].
  rewrite IH; [reflexivity|].
  intros Hin. apply Hs. right. exact Hin.
Qed.

Lemma split_at_sep (sep : N) (top rest : str) :
  ~ In sep top -> split sep (top ++ sep :: rest) = top :: split sep rest.
Proof.
  induction top as [|c top IH]; intros Hs.
  - cbn [app split]. rewrite N.eqb_refl. reflexivity.
  - cbn [app split].
    destruct (N.eqb_spec c sep) as [->|_]; [exfalso; apply Hs; left; reflexivity|].
    rewrite IH; [reflexivity|].
    intros Hin. apply Hs. right. exact Hin.
Qed.

Lemma splitroot_relative (c : N) (s : str) :
  c <> PurePath.slash -> PurePath.splitroot (c :: s) = ([], c :: s).
Proof.
  intros Hc. cbn [PurePath.splitroot].
  destruct (N.eqb_spec c PurePath.slash) as [E|_]; [contradiction|reflexivity].
Qed.

(** A name with no slash in it has at most one component. *)
Lemma n_parts_slash_free (file : str) :
  slash_free file -> (n_parts file < 2)%nat.
Proof.
  unfold slash_free, n_parts, PurePath.parts. intros Hs.
  destruct file as [|c s]; [cbn; lia|].
  rewrite splitroot_relative by (intros ->; apply Hs; left; reflexivity).
  rewrite split_slash_free by exact Hs.
  cbn [filter]. destruct (PurePath.keep_component (c :: s)); cbn; lia.
Qed.

(** So has the name of a top-level directory. *)
Lemma n_parts_top_directory (top : str) :
  slash_free top -> (n_parts (top ++ [PurePath.slash]) < 2)%nat.
Proof.
  unfold slash_free, n_parts, PurePath.parts. intros Hs.
  destruct top as [|c s]; [cbn; lia|].
  cbn [app]. rewrite splitroot_relative by (intros ->; apply Hs; left; reflexivity).
  change (c :: s ++ [PurePath.slash]) with ((c :: s) ++ PurePath.slash :: []).
  rewrite split_at_sep by exact Hs.
  cbn [split filter].
  destruct (PurePath.keep_component (c :: s)); cbn; lia.
Qed.

Lemma n_parts_top_level (file : str) :
  top_level file -> (n_parts file < 2)%nat.
Proof.
  intros [Hs|(top & Hs & ->)].
  - apply n_parts_slash_free, Hs.
  - apply n_parts_top_directory, Hs.
Qed.

Lemma keep_plain (top : str) :
  top <> [] -> top <> [PurePath.dot] -> PurePath.keep_component top = true.
Proof.
  intros H1 H2. unfold PurePath.keep_component, str_eqb.
  destruct (list_eq_dec N.eq_dec top []); [contradiction|].
  destruct (list_eq_dec N.eq_dec top [PurePath.dot]); [contradiction|].
  reflexivity.
Qed.

(** The components of [top/DATA] followed by nothing or by a slash and
    anything: [top], then [DATA]. *)
Lemma parts_under_DATA (top rest : str) :
  slash_free top -> top <> [] -> top <> [PurePath.dot] ->
  rest = [] \/ (exists tail, rest = PurePath.slash :: tail) ->
  exists more,
    PurePath.parts (top ++ PurePath.slash :: DATA ++ rest)
    = top :: DATA :: more.
Proof.
  intros Hs Hne Hdot Hrest. unfold PurePath.parts.
  destruct top as [|c s]; [contradiction|].
  cbn [app]. rewrite splitroot_relative by (intros ->; apply Hs; left; reflexivity).
  change (c :: s ++ PurePath.slash :: DATA ++ rest)
    with ((c :: s) ++ PurePath.slash :: DATA ++ rest).
  rewrite split_at_sep by exact Hs.
  cbn [filter]. rewrite (keep_plain (c :: s) Hne Hdot).
  destruct Hrest as [->|(tail & ->)].
  - rewrite app_nil_r. eexists. vm_compute. reflexivity.
  - rewrite split_at_sep by (vm_compute; intuition discriminate).
    cbn [filter].
    replace (PurePath.keep_component DATA) with true by (vm_compute; reflexivity).
    eexists. reflexivity.
Qed.

(** *** What the locator returns *)

Lemma comprehension_Ok (files found : list str) :
  comprehension files = Ok found ->
  found = filter second_is_DATA files /\
  Forall (fun file => (2 <= n_parts file)%nat) files.
Proof.
  intros Hok.
  assert (Hlong : Forall (fun file => (2 <= n_parts file)%nat) files).
  { apply Forall_forall. intros file Hin.
    destruct (Nat.ltb_spec (n_parts file) 2) as [Hs|Hl]; [|exact Hl].
    rewrite comprehension_short in Hok; [discriminate Hok|].
    apply Exists_exists. exists file. split; assumption. }
  rewrite (comprehension_long files Hlong) in Hok.
  injection Hok as <-. split; [reflexivity|exact Hlong].
Qed.

Lemma filter_first {A} (f : A -> bool) (l : list A) (x : A) (tl : list A) :
  filter f l = x :: tl ->
  exists before after,
    l = before ++ x :: after /\
    forall y, In y before -> f y = false.
Proof.
  induction l as [|a l IH]; intros Hf; [discriminate Hf|].
  cbn [filter] in Hf. destruct (f a) eqn:Ha.
  - injection Hf as -> _. exists [], l. split; [reflexivity|intros ? []].
  - destruct (IH Hf) as (before & after & -> & Hbefore).
    exists (a :: before), after. split; [reflexivity|].
    intros y [<-|Hy]; [exact Ha|apply Hbefore, Hy].
Qed.

(** X1: whatever the locator returns is an entry before the last whose
    component of index 1 is [DATA], no entry before it in the listing is
    such an entry, and every entry before the last has two components or
    more. *)
Theorem locator_result_is_first_DATA_entry (zipfiles : list str) (file : str) :
  data_file zipfiles = Ok file ->
  in_DATA file = Ok true /\
  (exists before after,
     removelast zipfiles = before ++ file :: after /\
     forall other, In other before -> in_DATA other = Ok false) /\
  forall other, In other (removelast zipfiles) -> (2 <= n_parts other)%nat.
Proof.
  unfold data_file. intros Hok.
  destruct (comprehension (removelast zipfiles)) as [found|e] eqn:Hc;
    [|discriminate Hok].
  cbn [bind] in Hok.
  destruct (comprehension_Ok _ _ Hc) as [-> Hlong].
  rewrite Forall_forall in Hlong.
  unfold index in Hok.
  destruct (filter second_is_DATA (removelast zipfiles)) as [|hd tl] eqn:Hf;
    [discriminate Hok|].
  cbn [nth_error] in Hok. injection Hok as ->.
  assert (Hin : In file (filter second_is_DATA (removelast zipfiles)))
    by (rewrite Hf; left; reflexivity).
  apply filter_In in Hin. destruct Hin as [Hin Hdata].
  split; [|split].
  - rewrite in_DATA_long by (apply Hlong, Hin). rewrite Hdata. reflexivity.
  - destruct (filter_first _ _ _ _ Hf) as (before & after & Hsplit & Hbefore).
    exists before, after. split; [exact Hsplit|].
    intros other Hother.
    rewrite in_DATA_long
      by (apply Hlong; rewrite Hsplit; apply in_or_app; left; exact Hother).
    rewrite (Hbefore other Hother). reflexivity.
  - exact Hlong.
Qed.

Lemma locator_result_is_first_DATA_entry_witness :
  in_DATA image = Ok true /\
  (exists before after,
     removelast [catalog; image; image'; browse] = before ++ image :: after /\
     forall other, In other before -> in_DATA other = Ok false) /\
  forall other, In other (removelast [catalog; image; image'; browse]) ->
                (2 <= n_parts other)%nat.
Proof.
  apply (locator_result_is_first_DATA_entry [catalog; image; image'; browse]).
  vm_compute. reflexivity.
Defined.

(** X2: with several [DATA] entries before the last, the first one in
    listing order is returned, provided every entry before the last has at
    least two components. *)
Theorem locator_first_match_wins
  (before after : list str) (file last : str) :
  in_DATA file = Ok true ->
  (forall other, In other before -> in_DATA other = Ok false) ->
  (forall other, In other after -> (2 <= n_parts other)%nat) ->
  data_file (before ++ file :: after ++ [last]) = Ok file.
Proof.
  intros Hfile Hbefore Hafter. unfold data_file.
  replace (before ++ file :: after ++ [last])
    with ((before ++ file :: after) ++ [last])
    by (rewrite <- app_assoc; reflexivity).
  rewrite removelast_snoc.
  assert (Hlong_of : forall f b, in_DATA f = Ok b ->
                       (2 <= n_parts f)%nat /\ second_is_DATA f = b).
  { intros f b Hf. destruct (Nat.ltb_spec (n_parts f) 2) as [Hs|Hl].
    - rewrite (in_DATA_short f Hs) in Hf. discriminate Hf.
    - rewrite (in_DATA_long f Hl) in Hf. injection Hf as <-. split; [exact Hl|reflexivity]. }
  rewrite comprehension_long.
  - rewrite filter_app. cbn [filter].
    rewrite (proj2 (Hlong_of _ _ Hfile)).
    rewrite (filter_none second_is_DATA before); [reflexivity|].
    intros x Hx. apply (Hlong_of x false), Hbefore, Hx.
  - apply Forall_forall. intros x Hx.
    apply in_app_or in Hx. destruct Hx as [Hx|[<-|Hx]].
    + apply (Hlong_of x false), Hbefore, Hx.
    + apply (Hlong_of file true), Hfile.
    + apply Hafter, Hx.
Qed.

Lemma locator_first_match_wins_witness :
  data_file [catalog; image; image'; document; browse] = Ok image.
Proof.
  apply (locator_first_match_wins [catalog] [image'; document] image browse).
  - vm_compute. reflexivity.
  - intros other [<-|[]]. vm_compute. reflexivity.
  - intros other [<-|[<-|[]]]; vm_compute; lia.
Defined.

(** X3: a listing of fewer than two entries always makes the locator
    raise the [IndexError] of the empty list, whatever its one entry is:
    the slice [zipfiles[:-1]] is empty. *)
Theorem locator_needs_two_entries (zipfiles : list str) :
  (List.length zipfiles < 2)%nat ->
  data_file zipfiles = Raise list_index_error.
Proof.
  destruct zipfiles as [|a [|b l]]; cbn [List.length]; intros H;
    [reflexivity|reflexivity|lia].
Qed.

Lemma locator_needs_two_entries_witness :
  data_file [image] = Raise list_index_error.
Proof.
  apply (locator_needs_two_entries [image]). vm_compute. lia.
Defined.

(** X4: the last entry of the listing is never looked at: replacing it by
    any other name, a bare one included, leaves the outcome as it is. *)
Theorem locator_ignores_last_entry (zipfiles : list str) (last last' : str) :
  data_file (zipfiles ++ [last]) = data_file (zipfiles ++ [last']).
Proof.
  unfold data_file. rewrite !removelast_snoc. reflexivity.
Qed.

(** X5: a bare file name or a top-level directory entry ([top/]) anywhere
    before the last entry makes the locator raise the [IndexError] of
    [parts[1]]. *)
Theorem locator_top_level_entry_raises (zipfiles : list str) (file : str) :
  In file (removelast zipfiles) ->
  top_level file ->
  data_file zipfiles = Raise tuple_index_error.
Proof.
  intros Hin Htop. unfold data_file.
  rewrite comprehension_short; [reflexivity|].
  apply Exists_exists. exists file. split; [exact Hin|].
  apply n_parts_top_level, Htop.
Qed.

Lemma locator_top_level_entry_raises_witness :
  data_file [top_dir; data_dir; image; browse] = Raise tuple_index_error.
Proof.
  apply (locator_top_level_entry_raises [top_dir; data_dir; image; browse] top_dir).
  - vm_compute. left. reflexivity.
  - right. exists (lit "ROS_CAM"). split; [|vm_compute; reflexivity].
    unfold slash_free. vm_compute. intuition discriminate.
Defined.

(** X6: the condition of the comprehension holds of every name of the
    form [top/DATA], [top/DATA/] or [top/DATA/...], where [top] is one
    plain component: the entry of the [DATA] directory itself passes it
    like the files under it. *)
Theorem in_DATA_under_DATA_directory (top rest : str) :
  slash_free top -> top <> [] -> top <> [PurePath.dot] ->
  rest = [] \/ (exists tail, rest = PurePath.slash :: tail) ->
  in_DATA (top ++ PurePath.slash :: DATA ++ rest) = Ok true.
Proof.
  intros Hs Hne Hdot Hrest.
  destruct (parts_under_DATA top rest Hs Hne Hdot Hrest) as (more & Hparts).
  unfold in_DATA, index. rewrite Hparts. cbn [nth_error bind].
  vm_compute. reflexivity.
Qed.

Lemma in_DATA_under_DATA_directory_witness :
  in_DATA data_dir = Ok true.
Proof.
  apply (in_DATA_under_DATA_directory (lit "ROS_CAM") [PurePath.slash]).
  - unfold slash_free. vm_compute. intuition discriminate.
  - discriminate.
  - discriminate.
  - right. exists []. reflexivity.
Defined.

End LocatorMore.

(* ------------------------------------------------------------------------- *)
(** ** More on the label reader *)

Module ReaderMore.

Import Locator Reader Examples MoreExamples Vocabulary.

Lemma label_body_tail (k : nat) (f : bytes) :
  label_body (S k) f -> label_body k (snd (ZipFile.readline f)).
Proof.
  intros Hbody i Hi. specialize (Hbody (S i) ltac:(lia)). exact Hbody.
Qed.

(** What [f.readline().decode('utf8')] gives on a sound stream when the
    next line is UTF-8. *)
Lemma next_line_of_decoded (f : bytes) :
  decodes (nth_line 0 f) = true ->
  exists line,
    next_line (ZipFile.whole f)
    = Ok (line, ZipFile.whole (snd (ZipFile.readline f))) /\
    str_eqb (strip line) END = is_END (nth_line 0 f) /\
    kept (nth_line 0 f)
    = if str_eqb (strip line) [] then [] else [strip line].
Proof.
  rewrite ReaderFacts.next_line_whole.
  unfold decodes, is_END, kept. cbn [nth_line].
  destruct (ZipFile.readline f) as [raw f']. cbn [fst snd].
  destruct (Utf8.decode raw) as [line|e]; [|discriminate].
  intros _. exists line. repeat split.
Qed.

Lemma next_line_of_undecoded (f : bytes) :
  decodes (nth_line 0 f) = false ->
  next_line (ZipFile.whole f) = Raise UnicodeDecodeError.
Proof.
  rewrite ReaderFacts.next_line_whole.
  unfold decodes. cbn [nth_line].
  destruct (ZipFile.readline f) as [raw f']. cbn [fst].
  destruct (Utf8.decode raw) as [line|e] eqn:Hdec; [discriminate|].
  intros _. cbn [bind]. rewrite (ReaderFacts.decode_raises _ _ Hdec). reflexivity.
Qed.

(** The loop, entered with a line that is not the sentinel, on a stream
    whose next [k] lines are label text and whose line after them is the
    sentinel. *)
Lemma while_loop_collects (k : nat) :
  forall f line label more,
    str_eqb (strip line) END = false ->
    label_body k f ->
    is_END (nth_line k f) = true ->
    while_loop (S (S k) + more) (ZipFile.whole f) line label
    = Some (Ok (label
                ++ (if str_eqb (strip line) [] then [] else [strip line])
                ++ label_lines k f)).
Proof.
  induction k as [|k IH]; intros f line label more Hline Hbody Hend.
  - assert (Hdec : decodes (nth_line 0 f) = true).
    { unfold is_END in Hend. unfold decodes.
      destruct (Utf8.decode (nth_line 0 f)); [reflexivity|discriminate]. }
    destruct (next_line_of_decoded f Hdec) as (line' & Hnext & Hsent & _).
    rewrite Hend in Hsent.
    cbn [Nat.add while_loop label_lines]. rewrite Hline. cbn [negb].
    rewrite Hnext, Hsent. cbn [negb].
    destruct (str_eqb (strip line) []); rewrite ?app_nil_r; reflexivity.
  - destruct (Hbody O ltac:(lia)) as [Hdec Hnot].
    destruct (next_line_of_decoded f Hdec) as (line' & Hnext & Hsent & Hkept).
    rewrite Hnot in Hsent.
    change (S (S (S k)) + more)%nat with (S (S (S k) + more)).
    cbn [while_loop]. rewrite Hline. cbn [negb]. rewrite Hnext.
    cbn [label_lines]. change (fst (ZipFile.readline f)) with (nth_line 0 f).
    rewrite Hkept.
    destruct (str_eqb (strip line) []);
      rewrite (IH _ line' _ more Hsent (label_body_tail _ _ Hbody) Hend);
      rewrite <- ?app_assoc; reflexivity.
Qed.

(** The loop on a stream whose next [k] lines are label text and whose
    line after them is not UTF-8. *)
Lemma while_loop_hits_binary (k : nat) :
  forall f line label more,
    str_eqb (strip line) END = false ->
    label_body k f ->
    decodes (nth_line k f) = false ->
    while_loop (S k + more) (ZipFile.whole f) line label
    = Some (Raise UnicodeDecodeError).
Proof.
  induction k as [|k IH]; intros f line label more Hline Hbody Hbin.
  - cbn [Nat.add while_loop]. rewrite Hline. cbn [negb].
    rewrite (next_line_of_undecoded f Hbin).
    destruct (str_eqb (strip line) []); reflexivity.
  - destruct (Hbody O ltac:(lia)) as [Hdec Hnot].
    destruct (next_line_of_decoded f Hdec) as (line' & Hnext & Hsent & _).
    rewrite Hnot in Hsent.
    change (S (S k) + more)%nat with (S (S k + more)).
    cbn [while_loop]. rewrite Hline. cbn [negb]. rewrite Hnext.
    destruct (str_eqb (strip line) []);
      apply (IH _ line' _ more Hsent (label_body_tail _ _ Hbody) Hbin).
Qed.

(** X7: when line [k] of a sound member is the first whose trimmed text
    is [END] and the lines before it are UTF-8, [read_label] returns, after
    [k + 1] evaluations of the loop condition, the trimmed non-empty lines
    before the sentinel, in order, joined with CRLF.  Nothing of the member
    after the sentinel line has a part in the result. *)
Theorem read_label_returns_lines_before_END
  (zip : ZipFile.archive) (data_file : str) (f : bytes) (k more : nat) :
  ZipFile.open zip data_file = Ok (ZipFile.whole f) ->
  label_body k f ->
  is_END (nth_line k f) = true ->
  read_label (S k + more) zip data_file
  = Some (Ok (join CRLF (label_lines k f))).
Proof.
  intros Hopen Hbody Hend. unfold read_label, read_stream. rewrite Hopen.
  destruct k as [|k].
  - assert (Hdec : decodes (nth_line 0 f) = true).
    { unfold is_END in Hend. unfold decodes.
      destruct (Utf8.decode (nth_line 0 f)); [reflexivity|discriminate]. }
    destruct (next_line_of_decoded f Hdec) as (line & Hnext & Hsent & _).
    rewrite Hend in Hsent. rewrite Hnext.
    cbn [Nat.add while_loop]. rewrite Hsent. reflexivity.
  - destruct (Hbody O ltac:(lia)) as [Hdec Hnot].
    destruct (next_line_of_decoded f Hdec) as (line & Hnext & Hsent & Hkept).
    rewrite Hnot in Hsent. rewrite Hnext.
    rewrite (while_loop_collects k _ line [] more Hsent
               (label_body_tail _ _ Hbody) Hend).
    cbn [label_lines app]. change (fst (ZipFile.readline f)) with (nth_line 0 f).
    rewrite Hkept. reflexivity.
Qed.

Lemma read_label_returns_lines_before_END_witness :
  read_label 4
    [(image, ZipFile.intact (example_label ++ [xff; x45; x4e; x44]))] image
  = Some (Ok (join CRLF (label_lines 3 (example_label ++ [xff; x45; x4e; x44])))).
Proof.
  apply (read_label_returns_lines_before_END
           [(image, ZipFile.intact (example_label ++ [xff; x45; x4e; x44]))]
           image (example_label ++ [xff; x45; x4e; x44]) 3 0).
  - vm_compute. reflexivity.
  - intros i Hi.
    destruct i as [|[|[|i]]]; [vm_compute; split; reflexivity ..|lia].
  - vm_compute. reflexivity.
Defined.

(** X8: when line [k] of a sound member is not UTF-8 and the lines before
    it are UTF-8 and none of them is the sentinel, [read_label] raises
    [UnicodeDecodeError], after [k] evaluations of the loop condition. *)
Theorem read_label_raises_on_binary_line
  (zip : ZipFile.archive) (data_file : str) (f : bytes) (k more : nat) :
  ZipFile.open zip data_file = Ok (ZipFile.whole f) ->
  label_body k f ->
  decodes (nth_line k f) = false ->
  read_label (k + more) zip data_file = Some (Raise UnicodeDecodeError).
Proof.
  intros Hopen Hbody Hbin. unfold read_label, read_stream. rewrite Hopen.
  destruct k as [|k].
  - rewrite (next_line_of_undecoded f Hbin). reflexivity.
  - destruct (Hbody O ltac:(lia)) as [Hdec Hnot].
    destruct (next_line_of_decoded f Hdec) as (line & Hnext & Hsent & _).
    rewrite Hnot in Hsent. rewrite Hnext.
    rewrite (while_loop_hits_binary k _ line [] more Hsent
               (label_body_tail _ _ Hbody) Hbin).
    reflexivity.
Qed.

Lemma read_label_raises_on_binary_line_witness :
  read_label 1 [(image, ZipFile.intact binary_label)] image
  = Some (Raise UnicodeDecodeError).
Proof.
  apply (read_label_raises_on_binary_line
           [(image, ZipFile.intact binary_label)] image binary_label 1 0).
  - vm_compute. reflexivity.
  - intros i Hi. destruct i as [|i]; [vm_compute; split; reflexivity|lia].
  - vm_compute. reflexivity.
Defined.

(** *** The archive *)

Lemma getinfo_listed (zip : ZipFile.archive) (name : str) :
  In name (ZipFile.namelist zip) ->
  exists m, ZipFile.getinfo zip name = Some m.
Proof.
  induction zip as [|[n c] zip IH]; [intros []|].
  cbn [ZipFile.namelist List.map fst ZipFile.getinfo]. intros [->|Hin].
  - destruct (ZipFile.getinfo zip name) as [c'|]; [exists c'; reflexivity|].
    exists c. unfold str_eqb.
    destruct (list_eq_dec N.eq_dec name name); [reflexivity|contradiction].
  - destruct (IH Hin) as (c' & ->). exists c'. reflexivity.
Qed.

Lemma getinfo_unlisted (zip : ZipFile.archive) (name : str) :
  ~ In name (ZipFile.namelist zip) -> ZipFile.getinfo zip name = None.
Proof.
  induction zip as [|[n c] zip IH]; [reflexivity|].
  cbn [ZipFile.namelist List.map fst ZipFile.getinfo]. intros Hnot.
  rewrite IH by (intros Hin; apply Hnot; right; exact Hin).
  unfold str_eqb.
  destruct (list_eq_dec N.eq_dec n name) as [->|_]; [|reflexivity].
  exfalso. apply Hnot. left. reflexivity.
Qed.

Lemma next_line_not_KeyError (f : ZipFile.stream) (e : PyExn) :
  next_line f = Raise e -> not_KeyError e.
Proof.
  unfold next_line, ZipFile.stream_readline.
  destruct (ZipFile.readline (ZipFile.pending f)) as [raw rest].
  destruct (ZipFile.fault f) as [[good d]|].
  - destruct (ZipFile.ends_with_LF raw && (List.length raw <=? good)%nat);
      cbn [bind fst].
    + destruct (Utf8.decode raw) as [line|e'] eqn:Hdec; [discriminate|].
      cbn [bind]. intros H. injection H as <-.
      rewrite (ReaderFacts.decode_raises _ _ Hdec). intros key. discriminate.
    + intros H. injection H as <-. intros key. destruct d; discriminate.
  - cbn [bind fst].
    destruct (Utf8.decode raw) as [line|e'] eqn:Hdec; [discriminate|].
    cbn [bind]. intros H. injection H as <-.
    rewrite (ReaderFacts.decode_raises _ _ Hdec). intros key. discriminate.
Qed.

Lemma while_loop_not_KeyError (fuel : nat) :
  forall f line label e,
    while_loop fuel f line label = Some (Raise e) -> not_KeyError e.
Proof.
  induction fuel as [|fuel IH]; intros f line label e; [discriminate|].
  cbn [while_loop].
  destruct (negb (str_eqb (strip line) END)); [|discriminate].
  destruct (next_line f) as [[line' f']|e'] eqn:Hnext.
  - destruct (str_eqb (strip line) []); apply IH.
  - apply next_line_not_KeyError in Hnext.
    destruct (str_eqb (strip line) []); intros H; injection H as <-; exact Hnext.
Qed.

(** X9: the name the locator picks out of [zip.namelist()] is a member of
    the archive: on a located name [read_label] never raises [KeyError],
    whatever the condition of the member. *)
Theorem located_member_never_raises_KeyError
  (zip : ZipFile.archive) (file : str) :
  data_file (ZipFile.namelist zip) = Ok file ->
  forall fuel key, read_label fuel zip file <> Some (Raise (KeyError key)).
Proof.
  intros Hloc.
  assert (Hin : In file (ZipFile.namelist zip)).
  { unfold data_file in Hloc.
    destruct (comprehension (removelast (ZipFile.namelist zip)))
      as [found|e] eqn:Hc; [|discriminate Hloc].
    cbn [bind] in Hloc.
    destruct (LocatorMore.comprehension_Ok _ _ Hc) as [-> _].
    unfold index in Hloc.
    destruct (filter second_is_DATA (removelast (ZipFile.namelist zip)))
      as [|hd tl] eqn:Hf; [discriminate Hloc|].
    cbn [nth_error] in Hloc. injection Hloc as ->.
    apply LocatorFacts.In_removelast.
    apply (proj1 (filter_In second_is_DATA file _)).
    rewrite Hf. left. reflexivity. }
  destruct (getinfo_listed zip file Hin) as (m & Hget).
  intros fuel key. unfold read_label, ZipFile.open. rewrite Hget.
  destruct (ZipFile.condition_of m) as [|d|good d].
  - unfold read_stream.
    destruct (next_line _) as [[line f']|e] eqn:Hnext.
    + destruct (while_loop fuel f' line []) as [[label|e]|] eqn:Hloop;
        try discriminate.
      intros H. injection H as ->.
      exact (while_loop_not_KeyError _ _ _ _ _ Hloop key eq_refl).
    + intros H. injection H as ->.
      exact (next_line_not_KeyError _ _ Hnext key eq_refl).
  - destruct d; discriminate.
  - unfold read_stream.
    destruct (next_line _) as [[line f']|e] eqn:Hnext.
    + destruct (while_loop fuel f' line []) as [[label|e]|] eqn:Hloop;
        try discriminate.
      intros H. injection H as ->.
      exact (while_loop_not_KeyError _ _ _ _ _ Hloop key eq_refl).
    + intros H. injection H as ->.
      exact (next_line_not_KeyError _ _ Hnext key eq_refl).
Qed.

Lemma located_member_never_raises_KeyError_witness :
  read_label 4 [(catalog, ZipFile.intact []); (image, damaged_image);
                (browse, ZipFile.intact [])] image
  <> Some (Raise (KeyError image)).
Proof.
  apply (located_member_never_raises_KeyError
           [(catalog, ZipFile.intact []); (image, damaged_image);
            (browse, ZipFile.intact [])] image).
  vm_compute. reflexivity.
Defined.

(** X10: on a name that is not in the archive's listing, [read_label]
    raises [KeyError] before it reads any line, whatever the fuel. *)
Theorem read_label_unlisted_name_raises_KeyError
  (zip : ZipFile.archive) (data_file : str) (fuel : nat) :
  ~ In data_file (ZipFile.namelist zip) ->
  read_label fuel zip data_file = Some (Raise (KeyError data_file)).
Proof.
  intros Hnot. unfold read_label, ZipFile.open.
  rewrite (getinfo_unlisted zip data_file Hnot). reflexivity.
Qed.

Lemma read_label_unlisted_name_raises_KeyError_witness :
  read_label 0 [(image, ZipFile.intact example_label)] browse
  = Some (Raise (KeyError browse)).
Proof.
  apply (read_label_unlisted_name_raises_KeyError
           [(image, ZipFile.intact example_label)] browse 0).
  vm_compute. intuition discriminate.
Defined.

End ReaderMore.

(* ------------------------------------------------------------------------- *)
(** ** More on the image unpacker *)

Module UnpackerMore.

Import Struct Numpy Notebook Stats Examples MoreExamples Vocabulary.
Import UnpackerFacts.

(** *** The items of the format *)

Lemma length_unpack_H (n : nat) :
  forall buf : bytes,
    (2 * n <= List.length buf)%nat -> List.length (unpack_H n buf) = n.
Proof.
  induction n as [|n IH]; intros buf Hlen; [reflexivity|].
  destruct buf as [|b0 [|b1 r]]; cbn [List.length] in Hlen; try lia.
  cbn [unpack_H List.length]. rewrite IH by lia. reflexivity.
Qed.

Lemma uint16_le_range (b0 b1 : byte) : is_uint16 (uint16_le b0 b1).
Proof.
  unfold is_uint16, uint16_le.
  pose proof (Byte.to_N_bounded b0). pose proof (Byte.to_N_bounded b1). lia.
Qed.

Lemma unpack_H_range (n : nat) :
  forall buf : bytes, Forall is_uint16 (unpack_H n buf).
Proof.
  induction n as [|n IH]; intros buf; [constructor|].
  destruct buf as [|b0 [|b1 r]]; cbn [unpack_H]; try constructor.
  - apply uint16_le_range.
  - apply IH.
Qed.

Lemma unpack_H_firstn (n : nat) :
  forall buf : bytes, unpack_H n (firstn (2 * n) buf) = unpack_H n buf.
Proof.
  induction n as [|n IH]; intros buf; [reflexivity|].
  replace (2 * S n)%nat with (S (S (2 * n))) by lia.
  destruct buf as [|b0 [|b1 r]]; cbn [firstn unpack_H]; try reflexivity.
  rewrite IH. reflexivity.
Qed.

Lemma nth_error_unpack_H (n : nat) :
  forall (buf : bytes) (i : nat),
    (i < n)%nat -> (2 * n <= List.length buf)%nat ->
    nth_error (unpack_H n buf) i
    = Some (uint16_le (nth (2 * i) buf x00) (nth (2 * i + 1) buf x00)).
Proof.
  induction n as [|n IH]; intros buf i Hi Hlen; [lia|].
  destruct buf as [|b0 [|b1 r]]; cbn [List.length] in Hlen; try lia.
  cbn [unpack_H]. destruct i as [|i]; [reflexivity|].
  cbn [nth_error]. rewrite IH by lia.
  replace (2 * S i)%nat with (S (S (2 * i))) by lia.
  replace (S (S (2 * i)) + 1)%nat with (S (S (2 * i + 1))) by lia.
  reflexivity.
Qed.

Lemma byte_of_Z_to_N (b : byte) : byte_of_Z (Z.of_N (Byte.to_N b)) = b.
Proof.
  unfold byte_of_Z.
  pose proof (Byte.to_N_bounded b) as Hb.
  rewrite Z.mod_small by lia. rewrite N2Z.id, Byte.of_to_N. reflexivity.
Qed.

Lemma pack_H_uint16_le (b0 b1 : byte) : pack_H (uint16_le b0 b1) = [b0; b1].
Proof.
  unfold pack_H, uint16_le.
  pose proof (Byte.to_N_bounded b0) as H0.
  pose proof (Byte.to_N_bounded b1) as H1.
  assert (Hlow : byte_of_Z (Z.of_N (Byte.to_N b0) + 256 * Z.of_N (Byte.to_N b1))
                 = b0).
  { assert (Hmod : (Z.of_N (Byte.to_N b0) + 256 * Z.of_N (Byte.to_N b1))
                     mod 256 = Z.of_N (Byte.to_N b0)).
    { rewrite (Z.mul_comm 256), Z.mod_add by lia. apply Z.mod_small. lia. }
    unfold byte_of_Z. rewrite Hmod, N2Z.id, Byte.of_to_N. reflexivity. }
  assert (Hhigh : (Z.of_N (Byte.to_N b0) + 256 * Z.of_N (Byte.to_N b1)) / 256
                  = Z.of_N (Byte.to_N b1)).
  { rewrite (Z.mul_comm 256), Z.div_add by lia.
    rewrite Z.div_small by lia. lia. }
  rewrite Hlow, Hhigh, byte_of_Z_to_N. reflexivity.
Qed.

Lemma encode_unpack_H (n : nat) :
  forall buf : bytes,
    (2 * n <= List.length buf)%nat ->
    encode (unpack_H n buf) = firstn (2 * n) buf.
Proof.
  induction n as [|n IH]; intros buf Hlen; [reflexivity|].
  replace (2 * S n)%nat with (S (S (2 * n))) by lia.
  destruct buf as [|b0 [|b1 r]]; cbn [List.length] in Hlen; try lia.
  cbn [unpack_H encode flat_map firstn]. fold (encode (unpack_H n r)).
  rewrite pack_H_uint16_le, IH by lia. reflexivity.
Qed.

(** *** The two library calls *)

Lemma unpack_from_Ok (count : Z) (buffer : bytes) (off : Z) (t : list Z) :
  unpack_from count buffer off = Ok t ->
  0 <= count <= half_max /\
  PY_SSIZE_T_MIN <= off <= PY_SSIZE_T_MAX /\
  0 <= start_of buffer off /\
  start_of buffer off + 2 * count <= Z.of_nat (List.length buffer) /\
  (off < 0 -> off + 2 * count <= 0) /\
  t = unpack_H (Z.to_nat count) (skipn (Z.to_nat (start_of buffer off)) buffer).
Proof.
  unfold unpack_from, start_of, half_max.
  change (PY_SSIZE_T_MAX / 2) with 4611686018427387903.
  unfold PY_SSIZE_T_MIN, PY_SSIZE_T_MAX.
  split_ltb; intros Hok; try discriminate Hok;
    injection Hok as <-; repeat split; lia.
Qed.

Lemma unpack_from_in_bounds (count : Z) (buffer : bytes) (off : Z) :
  0 <= count <= half_max ->
  PY_SSIZE_T_MIN <= off <= PY_SSIZE_T_MAX ->
  0 <= start_of buffer off ->
  start_of buffer off + 2 * count <= Z.of_nat (List.length buffer) ->
  (off < 0 -> off + 2 * count <= 0) ->
  unpack_from count buffer off
  = Ok (unpack_H (Z.to_nat count) (skipn (Z.to_nat (start_of buffer off)) buffer)).
Proof.
  unfold unpack_from, start_of, half_max.
  change (PY_SSIZE_T_MAX / 2) with 4611686018427387903.
  unfold PY_SSIZE_T_MIN, PY_SSIZE_T_MAX.
  split_ltb; intros; try lia; reflexivity.
Qed.

Lemma unpack_from_truncated (count : Z) (buffer : bytes) (off : Z) :
  Z.of_nat (List.length buffer) < off + 2 * count ->
  exists e, unpack_from count buffer off = Raise e.
Proof.
  unfold unpack_from.
  change (PY_SSIZE_T_MAX / 2) with 4611686018427387903.
  unfold PY_SSIZE_T_MIN, PY_SSIZE_T_MAX.
  pose proof (Nat2Z.is_nonneg (List.length buffer)).
  split_ltb; intros; try (eexists; reflexivity); exfalso; lia.
Qed.

Lemma length_unpacked (count : Z) (buffer : bytes) (off : Z) (t : list Z) :
  unpack_from count buffer off = Ok t ->
  Z.of_nat (List.length t) = count.
Proof.
  intros H. destruct (unpack_from_Ok _ _ _ _ H) as (Hc & _ & Hs & Hw & _ & ->).
  rewrite length_unpack_H; [lia|].
  rewrite length_skipn. lia.
Qed.

Lemma reshape_Ok (t : list Z) (d0 d1 : Z) (a : ndarray) :
  d1 * d0 = Z.of_nat (List.length t) ->
  reshape t d0 d1 = Ok a ->
  0 <= d0 <= PY_SSIZE_T_MAX /\ 0 <= d1 <= PY_SSIZE_T_MAX /\
  array_bytes d0 d1 <= PY_SSIZE_T_MAX /\
  a = mk_ndarray (d0, d1) t.
Proof.
  unfold reshape, new_array, fits_intp. intros Hsize.
  pose proof (Nat2Z.is_nonneg (List.length t)) as Hnn.
  repeat match goal with
         | |- context [Z.leb ?x ?y] => destruct (Z.leb_spec x y)
         end; cbn [andb negb];
    split_ltb; try discriminate;
    repeat match goal with
           | |- context [Z.eqb ?x ?y] => destruct (Z.eqb_spec x y)
           end; cbn [orb negb]; try discriminate;
    try (exfalso; nia);
    intros Hok; injection Hok as <-; repeat split; lia.
Qed.

(** What a successful run of the unpacker returns. *)
Lemma image_unpacker_Ok (buffer : bytes) (P R L S : Z) (a : ndarray) :
  image_unpacker buffer P R L S = Ok a ->
  0 <= L <= PY_SSIZE_T_MAX /\ 0 <= S <= PY_SSIZE_T_MAX /\
  L * S <= half_max /\
  PY_SSIZE_T_MIN <= byte_offset P R <= PY_SSIZE_T_MAX /\
  0 <= start_of buffer (byte_offset P R) /\
  start_of buffer (byte_offset P R) + 2 * (L * S)
    <= Z.of_nat (List.length buffer) /\
  (byte_offset P R < 0 -> byte_offset P R + 2 * (L * S) <= 0) /\
  a = mk_ndarray (S, L)
        (unpack_H (Z.to_nat (L * S))
           (skipn (Z.to_nat (start_of buffer (byte_offset P R))) buffer)).
Proof.
  unfold image_unpacker. intros H.
  destruct (unpack_from (L * S) buffer (byte_offset P R)) as [t|e] eqn:Hu;
    [|discriminate H].
  cbn [bind] in H.
  pose proof (length_unpacked _ _ _ _ Hu) as Hlen.
  destruct (unpack_from_Ok _ _ _ _ Hu) as (Hc & Hoff & Hs & Hw & Hneg & Ht).
  destruct (reshape_Ok t S L a (eq_sym Hlen) H) as (HS & HL & _ & ->).
  subst t. repeat split; lia.
Qed.

Lemma image_unpacker_Ok_bytes (buffer : bytes) (P R L S : Z) (a : ndarray) :
  image_unpacker buffer P R L S = Ok a ->
  array_bytes S L <= PY_SSIZE_T_MAX.
Proof.
  unfold image_unpacker. intros H.
  destruct (unpack_from (L * S) buffer (byte_offset P R)) as [t|e] eqn:Hu;
    [|discriminate H].
  cbn [bind] in H.
  pose proof (length_unpacked _ _ _ _ Hu) as Hlen.
  destruct (reshape_Ok t S L a (eq_sym Hlen) H) as (_ & _ & Hbytes & _).
  exact Hbytes.
Qed.

Lemma unpacked_grid_facts (buffer : bytes) (P R L S : Z) (a : ndarray) :
  image_unpacker buffer P R L S = Ok a ->
  Z.of_nat (List.length (flat a)) = L * S /\ Forall is_uint16 (flat a).
Proof.
  intros Hok.
  destruct (image_unpacker_Ok _ _ _ _ _ _ Hok)
    as (HL & HS & Hc & Hoff & Hs & Hw & Hneg & ->).
  cbn [flat]. split; [|apply unpack_H_range].
  assert (Hnn : 0 <= L * S) by (apply Z.mul_nonneg_nonneg; lia).
  rewrite length_unpack_H; [lia|]. rewrite length_skipn. lia.
Qed.

(** *** Grids as nested lists *)

Lemma length_chunks (n w : nat) :
  forall l, List.length (chunks n w l) = n.
Proof.
  induction n as [|n IH]; intros l; [reflexivity|].
  cbn [chunks List.length]. rewrite IH. reflexivity.
Qed.

Lemma concat_chunks (n w : nat) :
  forall l, List.length l = (n * w)%nat -> List.concat (chunks n w l) = l.
Proof.
  induction n as [|n IH]; intros l Hlen.
  - destruct l; [reflexivity|discriminate Hlen].
  - cbn [chunks List.concat]. rewrite IH; [apply firstn_skipn|].
    rewrite length_skipn. lia.
Qed.

Lemma nth_error_chunks (n w : nat) :
  forall l r,
    (r < n)%nat ->
    nth_error (chunks n w l) r = Some (firstn w (skipn (r * w) l)).
Proof.
  induction n as [|n IH]; intros l r Hr; [lia|].
  cbn [chunks]. destruct r as [|r]; [reflexivity|].
  cbn [nth_error]. rewrite IH by lia. rewrite skipn_skipn.
  replace (r * w + w)%nat with (S r * w)%nat by lia. reflexivity.
Qed.

(** *** Minimum and maximum *)

Lemma fold_min_spec (l : list Z) :
  forall x,
    In (fold_left Z.min l x) (x :: l) /\
    forall v, In v (x :: l) -> fold_left Z.min l x <= v.
Proof.
  induction l as [|y l IH]; intros x.
  - cbn. split; [left; reflexivity|]. intros v [<-|[]]. lia.
  - cbn [fold_left]. destruct (IH (Z.min x y)) as [Hin Hle]. split.
    + destruct Hin as [Hin|Hin]; [|right; right; exact Hin].
      rewrite <- Hin. destruct (Z.min_spec x y) as [[_ ->]|[_ ->]];
        [left|right; left]; reflexivity.
    + intros v [<-|[<-|Hv]].
      * specialize (Hle _ (or_introl eq_refl)). lia.
      * specialize (Hle _ (or_introl eq_refl)). lia.
      * apply Hle. right. exact Hv.
Qed.

Lemma fold_max_spec (l : list Z) :
  forall x,
    In (fold_left Z.max l x) (x :: l) /\
    forall v, In v (x :: l) -> v <= fold_left Z.max l x.
Proof.
  induction l as [|y l IH]; intros x.
  - cbn. split; [left; reflexivity|]. intros v [<-|[]]. lia.
  - cbn [fold_left]. destruct (IH (Z.max x y)) as [Hin Hle]. split.
    + destruct Hin as [Hin|Hin]; [|right; right; exact Hin].
      rewrite <- Hin. destruct (Z.max_spec x y) as [[_ ->]|[_ ->]];
        [right; left|left]; reflexivity.
    + intros v [<-|[<-|Hv]].
      * specialize (Hle _ (or_introl eq_refl)). lia.
      * specialize (Hle _ (or_introl eq_refl)). lia.
      * apply Hle. right. exact Hv.
Qed.

(** *** Further properties of the unpacker *)

(** X11: the unpacker returns a grid exactly when L and S are not
    negative, the array of shape (S, L) passes numpy's size check (eight
    bytes times the dimensions, the zero ones left out, fit the signed
    size type), the offset (P-1)*R fits [Py_ssize_t], and the 2*L*S
    bytes lie inside the buffer: from the offset on when it is
    non-negative, and, when it is negative, from that many bytes before
    the end of the buffer without running past the end. *)
Theorem unpacker_succeeds_iff (buffer : bytes) (P R L S : Z) :
  (exists a, image_unpacker buffer P R L S = Ok a) <->
  0 <= L /\
  0 <= S /\
  array_bytes S L <= PY_SSIZE_T_MAX /\
  PY_SSIZE_T_MIN <= byte_offset P R <= PY_SSIZE_T_MAX /\
  ((0 <= byte_offset P R /\
    byte_offset P R + 2 * (L * S) <= Z.of_nat (List.length buffer)) \/
   (byte_offset P R < 0 /\
    byte_offset P R + 2 * (L * S) <= 0 /\
    0 <= byte_offset P R + Z.of_nat (List.length buffer))).
Proof.
  split.
  - intros (a & Hok).
    pose proof (image_unpacker_Ok_bytes _ _ _ _ _ _ Hok) as Hbytes.
    destruct (image_unpacker_Ok _ _ _ _ _ _ Hok)
      as (HL & HS & Hc & Hoff & Hs & Hw & Hneg & _).
    unfold start_of in Hs, Hw.
    destruct (Z.ltb_spec (byte_offset P R) 0); repeat split; lia.
  - intros (HL & HS & Hbytes & Hoff & Hwin).
    assert (Hnn : 0 <= L * S) by (apply Z.mul_nonneg_nonneg; lia).
    assert (Hc : L * S <= half_max).
    { destruct (nonzero_bounds S HS) as [HnS HdS].
      destruct (nonzero_bounds L HL) as [HnL HdL].
      unfold array_bytes, itemsize, PY_SSIZE_T_MAX in Hbytes.
      unfold half_max. nia. }
    unfold image_unpacker.
    rewrite unpack_from_in_bounds;
      try (unfold start_of; destruct (Z.ltb_spec (byte_offset P R) 0); lia).
    cbn [bind]. eexists. apply reshape_of_shape; try lia.
    rewrite length_unpack_H; [lia|].
    rewrite length_skipn.
    unfold start_of. destruct (Z.ltb_spec (byte_offset P R) 0); lia.
Qed.

(** X12: a grid the unpacker returns has shape (S, L), holds L*S samples,
    and every sample is an unsigned 16-bit value. *)
Theorem unpacked_grid_shape_and_range
  (buffer : bytes) (P R L S : Z) (a : ndarray) :
  image_unpacker buffer P R L S = Ok a ->
  shape a = (S, L) /\
  Z.of_nat (List.length (flat a)) = L * S /\
  Forall is_uint16 (flat a).
Proof.
  intros Hok.
  destruct (image_unpacker_Ok _ _ _ _ _ _ Hok)
    as (HL & HS & Hc & Hoff & Hs & Hw & Hneg & ->).
  cbn [shape flat]. split; [reflexivity|]. split; [|apply unpack_H_range].
  assert (Hnn : 0 <= L * S) by (apply Z.mul_nonneg_nonneg; lia).
  rewrite length_unpack_H; [lia|]. rewrite length_skipn. lia.
Qed.

Lemma unpacked_grid_shape_and_range_witness :
  shape grid32 = (3, 2) /\
  Z.of_nat (List.length (flat grid32)) = 2 * 3 /\
  Forall is_uint16 (flat grid32).
Proof.
  apply (unpacked_grid_shape_and_range buffer32 3 2 2 3 grid32).
  vm_compute. reflexivity.
Defined.

(** X13: writing the samples of a returned grid back as little-endian
    16-bit integers gives exactly the 2*L*S bytes of the buffer that were
    read. *)
Theorem encode_of_unpacked_is_the_window
  (buffer : bytes) (P R L S : Z) (a : ndarray) :
  image_unpacker buffer P R L S = Ok a ->
  encode (flat a)
  = window buffer (Z.to_nat (start_of buffer (byte_offset P R)))
           (Z.to_nat (2 * (L * S))).
Proof.
  intros Hok.
  destruct (image_unpacker_Ok _ _ _ _ _ _ Hok)
    as (HL & HS & Hc & Hoff & Hs & Hw & Hneg & ->).
  assert (Hnn : 0 <= L * S) by (apply Z.mul_nonneg_nonneg; lia).
  cbn [flat]. unfold window.
  rewrite encode_unpack_H by (rewrite length_skipn; lia).
  f_equal. lia.
Qed.

Lemma encode_of_unpacked_is_the_window_witness :
  encode (flat grid32) = window buffer32 4 12.
Proof.
  apply (encode_of_unpacked_is_the_window buffer32 3 2 2 3 grid32).
  vm_compute. reflexivity.
Defined.

(** X14: sample number [i] of a returned grid is the byte at position
    start + 2*i plus 256 times the byte after it, where start is the
    position the read begins at. *)
Theorem unpacked_sample_is_little_endian
  (buffer : bytes) (P R L S : Z) (a : ndarray) (i : nat) :
  image_unpacker buffer P R L S = Ok a ->
  (i < Z.to_nat (L * S))%nat ->
  nth_error (flat a) i
  = Some (sample_at buffer (Z.to_nat (start_of buffer (byte_offset P R))) i).
Proof.
  intros Hok Hi.
  destruct (image_unpacker_Ok _ _ _ _ _ _ Hok)
    as (HL & HS & Hc & Hoff & Hs & Hw & Hneg & ->).
  cbn [flat]. unfold sample_at.
  rewrite nth_error_unpack_H by (try rewrite length_skipn; lia).
  rewrite !nth_skipn. rewrite Nat.add_assoc. reflexivity.
Qed.

Lemma unpacked_sample_is_little_endian_witness :
  nth_error (flat grid32) 4 = Some (sample_at buffer32 4 4).
Proof.
  apply (unpacked_sample_is_little_endian buffer32 3 2 2 3 grid32 4).
  - vm_compute. reflexivity.
  - vm_compute. lia.
Defined.

(** X15: with a non-negative offset the outcome depends on the buffer
    only through the 2*L*S bytes from the offset on: two buffers that hold
    them both, and agree on them, are unpacked alike, whatever stands
    before and after. *)
Theorem unpacker_reads_only_its_window
  (buffer buffer' : bytes) (P R L S : Z) :
  0 <= byte_offset P R ->
  byte_offset P R + 2 * (L * S) <= Z.of_nat (List.length buffer) ->
  byte_offset P R + 2 * (L * S) <= Z.of_nat (List.length buffer') ->
  window buffer (Z.to_nat (byte_offset P R)) (Z.to_nat (2 * (L * S)))
  = window buffer' (Z.to_nat (byte_offset P R)) (Z.to_nat (2 * (L * S))) ->
  image_unpacker buffer P R L S = image_unpacker buffer' P R L S.
Proof.
  intros Hoff Hin Hin' Hwin. unfold image_unpacker, unpack_from.
  change (PY_SSIZE_T_MAX / 2) with 4611686018427387903.
  unfold PY_SSIZE_T_MIN, PY_SSIZE_T_MAX.
  unfold window in Hwin.
  replace (Z.to_nat (2 * (L * S))) with (2 * Z.to_nat (L * S))%nat in Hwin by lia.
  split_ltb; try reflexivity; try (exfalso; lia);
    rewrite <- (unpack_H_firstn _ (skipn _ buffer));
    rewrite <- (unpack_H_firstn _ (skipn _ buffer'));
    rewrite Hwin; reflexivity.
Qed.

Lemma unpacker_reads_only_its_window_witness :
  image_unpacker padded_buffer 2 2 2 2
  = image_unpacker ([x00; x00] ++ example_buffer ++ [xff]) 2 2 2 2.
Proof.
  apply (unpacker_reads_only_its_window
           padded_buffer ([x00; x00] ++ example_buffer ++ [xff]) 2 2 2 2);
    vm_compute; congruence.
Defined.

(** X16: a negative offset is no error.  When (P-1)*R is negative, the
    2*L*S bytes asked for are no more than its absolute value, and that is
    no more than the length of the buffer, the unpacker reads from that
    many bytes before the end: it does what it does on the tail of the
    buffer with offset 0. *)
Theorem negative_offset_counts_from_the_end
  (buffer : bytes) (P R L S : Z) :
  byte_offset P R < 0 ->
  byte_offset P R + 2 * (L * S) <= 0 ->
  - byte_offset P R <= Z.of_nat (List.length buffer) ->
  Z.of_nat (List.length buffer) <= PY_SSIZE_T_MAX ->
  image_unpacker buffer P R L S
  = image_unpacker
      (skipn (Z.to_nat (Z.of_nat (List.length buffer) + byte_offset P R)) buffer)
      1 0 L S.
Proof.
  intros Hneg Hsize Hlen Hfits. unfold image_unpacker, unpack_from.
  change (byte_offset 1 0) with 0.
  rewrite length_skipn.
  change (PY_SSIZE_T_MAX / 2) with 4611686018427387903.
  unfold PY_SSIZE_T_MIN, PY_SSIZE_T_MAX in *.
  split_ltb; try reflexivity; try (exfalso; lia);
    rewrite skipn_0; rewrite (Z.add_comm (byte_offset P R)); reflexivity.
Qed.

Lemma negative_offset_counts_from_the_end_witness :
  image_unpacker padded_buffer 0 8 2 2
  = image_unpacker example_buffer 1 0 2 2.
Proof.
  apply (negative_offset_counts_from_the_end padded_buffer 0 8 2 2);
    vm_compute; congruence.
Defined.

(** X17: a returned grid, as a nested list, has S rows of L samples each;
    its rows one after the other are the samples in the order of the
    file; and the sample in row [r] and column [c] is sample number
    r*L + c. *)
Theorem unpacked_grid_is_row_major
  (buffer : bytes) (P R L S : Z) (a : ndarray) :
  image_unpacker buffer P R L S = Ok a ->
  List.length (tolist a) = Z.to_nat S /\
  List.concat (tolist a) = flat a /\
  forall r c,
    (r < Z.to_nat S)%nat -> (c < Z.to_nat L)%nat ->
    exists row,
      nth_error (tolist a) r = Some row /\
      List.length row = Z.to_nat L /\
      nth_error row c = nth_error (flat a) (r * Z.to_nat L + c).
Proof.
  intros Hok.
  destruct (image_unpacker_Ok _ _ _ _ _ _ Hok)
    as (HL & HS & Hc & Hoff & Hs & Hw & Hneg & ->).
  assert (Hnn : 0 <= L * S) by (apply Z.mul_nonneg_nonneg; lia).
  unfold tolist. cbn [shape flat fst snd].
  set (samples := unpack_H _ _).
  assert (Hlen : List.length samples = (Z.to_nat S * Z.to_nat L)%nat).
  { unfold samples. rewrite length_unpack_H by (rewrite length_skipn; lia).
    rewrite <- Z2Nat.inj_mul by lia. f_equal. lia. }
  split; [apply length_chunks|]. split; [apply concat_chunks, Hlen|].
  intros r c Hr Hcol. eexists. split; [apply nth_error_chunks, Hr|].
  split.
  - rewrite length_firstn, length_skipn. nia.
  - rewrite nth_error_firstn.
    destruct (Nat.ltb_spec c (Z.to_nat L)); [|lia].
    apply nth_error_skipn.
Qed.

Lemma unpacked_grid_is_row_major_witness :
  List.length (tolist grid32) = 3%nat /\
  List.concat (tolist grid32) = flat grid32 /\
  forall r c,
    (r < 3)%nat -> (c < 2)%nat ->
    exists row,
      nth_error (tolist grid32) r = Some row /\
      List.length row = 2%nat /\
      nth_error row c = nth_error (flat grid32) (r * 2 + c).
Proof.
  apply (unpacked_grid_is_row_major buffer32 3 2 2 3 grid32).
  vm_compute. reflexivity.
Defined.

(** X18: when the label asks for more bytes than the member holds, the
    cells raise and [data] keeps whatever it was bound to before -- the
    grid of an earlier product, if there was one -- while [offset],
    [rows], [cols] and [samples] are bound to the values of the new
    label. *)
Theorem failed_unpack_leaves_data_stale (g : Globals) (buffer : bytes) :
  ZipFile.open (v_zip g) (v_data_file g) = Ok (ZipFile.whole buffer) ->
  Z.of_nat (List.length buffer)
  < byte_offset (IMAGE_pointer (v_meta g)) (RECORD_BYTES (v_meta g))
    + 2 * (LINES (v_meta g) * LINE_SAMPLES (v_meta g)) ->
  (exists e, fst (unpacker_cells g) = Raise e) /\
  v_data (snd (unpacker_cells g)) = v_data g /\
  v_offset (snd (unpacker_cells g))
  = Some (byte_offset (IMAGE_pointer (v_meta g)) (RECORD_BYTES (v_meta g))) /\
  v_rows (snd (unpacker_cells g)) = Some (LINES (v_meta g)) /\
  v_cols (snd (unpacker_cells g)) = Some (LINE_SAMPLES (v_meta g)) /\
  v_samples (snd (unpacker_cells g))
  = Some (LINES (v_meta g) * LINE_SAMPLES (v_meta g)).
Proof.
  intros Hopen Htrunc.
  rewrite (unpacker_cells_run g buffer Hopen).
  destruct (unpack_from_truncated _ _ _ Htrunc) as (e & ->).
  cbn. repeat split. exists e. reflexivity.
Qed.

Lemma failed_unpack_leaves_data_stale_witness :
  (exists e, fst (unpacker_cells stale_kernel) = Raise e) /\
  v_data (snd (unpacker_cells stale_kernel))
  = Some (NDArray (array_of_rows [[1; 2]; [3; 4]])) /\
  v_offset (snd (unpacker_cells stale_kernel)) = Some 0 /\
  v_rows (snd (unpacker_cells stale_kernel)) = Some 3 /\
  v_cols (snd (unpacker_cells stale_kernel)) = Some 2 /\
  v_samples (snd (unpacker_cells stale_kernel)) = Some 6.
Proof.
  apply (failed_unpack_leaves_data_stale stale_kernel example_buffer).
  - vm_compute. reflexivity.
  - vm_compute. reflexivity.
Defined.

(** X19: on a returned grid with at least one sample, [data.min()] and
    [data.max()] are samples of the grid, bound every sample from below
    and from above, and lie between 0 and 65535; on a returned grid with
    no sample [data.min()] raises [ValueError]. *)
Theorem unpacked_min_max
  (buffer : bytes) (P R L S : Z) (a : ndarray) :
  image_unpacker buffer P R L S = Ok a ->
  (L * S = 0 -> min_max a = Raise (zero_size "minimum")) /\
  (0 < L * S ->
   exists lo hi,
     min_max a = Ok (lo, hi) /\
     In lo (flat a) /\ In hi (flat a) /\
     (forall v, In v (flat a) -> lo <= v <= hi) /\
     0 <= lo /\ hi < 65536).
Proof.
  intros Hok.
  destruct (unpacked_grid_facts _ _ _ _ _ _ Hok) as (Hlen & Hrange).
  unfold min_max, amin, amax. split.
  - intros Hzero. destruct (flat a) as [|x rest]; [reflexivity|].
    cbn [List.length] in Hlen. lia.
  - intros Hpos. destruct (flat a) as [|x rest] eqn:Hflat;
      [cbn [List.length] in Hlen; lia|].
    destruct (fold_min_spec rest x) as [Hmin_in Hmin_le].
    destruct (fold_max_spec rest x) as [Hmax_in Hmax_le].
    exists (fold_left Z.min rest x), (fold_left Z.max rest x).
    cbn [bind]. split; [reflexivity|].
    split; [exact Hmin_in|]. split; [exact Hmax_in|].
    rewrite Forall_forall in Hrange. split; [|split].
    + intros v Hv. split; [apply Hmin_le, Hv|apply Hmax_le, Hv].
    + apply (Hrange _ Hmin_in).
    + apply (Hrange _ Hmax_in).
Qed.

Lemma unpacked_min_max_witness :
  (2 * 3 = 0 -> min_max grid32 = Raise (zero_size "minimum")) /\
  (0 < 2 * 3 ->
   exists lo hi,
     min_max grid32 = Ok (lo, hi) /\
     In lo (flat grid32) /\ In hi (flat grid32) /\
     (forall v, In v (flat grid32) -> lo <= v <= hi) /\
     0 <= lo /\ hi < 65536).
Proof.
  apply (unpacked_min_max buffer32 3 2 2 3 grid32).
  vm_compute. reflexivity.
Defined.

End UnpackerMore.

(* ------------------------------------------------------------------------- *)
(** ** The exceptions each part can raise *)

Module ErrorKinds.

Import Locator Reader Struct Numpy Notebook Examples MoreExamples Vocabulary.

Lemma next_line_whole_raises (f : bytes) (e : PyExn) :
  next_line (ZipFile.whole f) = Raise e -> e = UnicodeDecodeError.
Proof.
  rewrite ReaderFacts.next_line_whole.
  destruct (Utf8.decode (fst (ZipFile.readline f))) as [line|e'] eqn:Hdec;
    [discriminate|].
  cbn [bind]. intros H. injection H as <-.
  apply (ReaderFacts.decode_raises _ _ Hdec).
Qed.

Lemma next_line_whole_Ok (f : bytes) (line : str) (f' : ZipFile.stream) :
  next_line (ZipFile.whole f) = Ok (line, f') ->
  f' = ZipFile.whole (snd (ZipFile.readline f)).
Proof.
  rewrite ReaderFacts.next_line_whole.
  destruct (Utf8.decode (fst (ZipFile.readline f))) as [l|e']; [|discriminate].
  cbn [bind]. intros H. injection H as _ <-. reflexivity.
Qed.

Lemma while_loop_whole_raises (fuel : nat) :
  forall f line label e,
    while_loop fuel (ZipFile.whole f) line label = Some (Raise e) ->
    e = UnicodeDecodeError.
Proof.
  induction fuel as [|fuel IH]; intros f line label e; [discriminate|].
  cbn [while_loop].
  destruct (negb (str_eqb (strip line) END)); [|discriminate].
  destruct (next_line (ZipFile.whole f)) as [[line' f']|e'] eqn:Hnext.
  - rewrite (next_line_whole_Ok _ _ _ Hnext).
    destruct (str_eqb (strip line) []); apply IH.
  - apply next_line_whole_raises in Hnext. subst e'.
    destruct (str_eqb (strip line) []); intros H; injection H as <-; reflexivity.
Qed.

(** X20: the only exception the locator raises is [IndexError], with the
    message of the tuple index or of the list index. *)
Theorem locator_raises_only_IndexError (zipfiles : list str) (e : PyExn) :
  data_file zipfiles = Raise e ->
  e = tuple_index_error \/ e = list_index_error.
Proof.
  unfold data_file.
  destruct (LocatorFacts.comprehension_cases (removelast zipfiles)) as [E|E];
    rewrite E; cbn [bind].
  - intros H. injection H as <-. left. reflexivity.
  - unfold index.
    destruct (filter second_is_DATA (removelast zipfiles)); cbn [nth_error].
    + intros H. injection H as <-. right. reflexivity.
    + discriminate.
Qed.

Lemma locator_raises_only_IndexError_witness :
  tuple_index_error = tuple_index_error \/ tuple_index_error = list_index_error.
Proof.
  apply (locator_raises_only_IndexError image_bare tuple_index_error).
  vm_compute. reflexivity.
Defined.

(** X21: on a member that opens as a sound stream, the only exception
    [read_label] raises is [UnicodeDecodeError]: the loop itself, the
    trimming, the comparisons and the join raise nothing. *)
Theorem read_label_on_sound_member_raises_only_UnicodeDecodeError
  (fuel : nat) (zip : ZipFile.archive) (data_file : str) (f : bytes)
  (e : PyExn) :
  ZipFile.open zip data_file = Ok (ZipFile.whole f) ->
  read_label fuel zip data_file = Some (Raise e) ->
  e = UnicodeDecodeError.
Proof.
  intros Hopen. unfold read_label, read_stream. rewrite Hopen.
  destruct (next_line (ZipFile.whole f)) as [[line f']|e'] eqn:Hnext.
  - rewrite (next_line_whole_Ok _ _ _ Hnext).
    destruct (while_loop fuel _ line []) as [[label|e']|] eqn:Hloop;
      try discriminate.
    intros H. injection H as <-.
    apply (while_loop_whole_raises _ _ _ _ _ Hloop).
  - intros H. injection H as <-.
    apply (next_line_whole_raises _ _ Hnext).
Qed.

Lemma read_label_on_sound_member_raises_only_UnicodeDecodeError_witness :
  UnicodeDecodeError = UnicodeDecodeError.
Proof.
  apply (read_label_on_sound_member_raises_only_UnicodeDecodeError
           5 [(image, ZipFile.intact binary_label)] image binary_label
           UnicodeDecodeError).
  - vm_compute. reflexivity.
  - vm_compute. reflexivity.
Defined.

(** X22: the only exceptions the unpacker raises are [struct.error],
    [OverflowError] and [ValueError]; [OverflowError] only when the offset
    does not fit [Py_ssize_t], and [ValueError] only when L or S is
    negative or the array of shape (S, L) does not pass numpy's size
    check. *)
Theorem unpacker_raises_only_three_kinds
  (buffer : bytes) (P R L S : Z) (e : PyExn) :
  image_unpacker buffer P R L S = Raise e ->
  (exists msg, e = StructError msg) \/
  ((exists msg, e = OverflowError msg) /\
   (byte_offset P R < PY_SSIZE_T_MIN \/ PY_SSIZE_T_MAX < byte_offset P R)) \/
  ((exists msg, e = ValueError msg) /\
   (L < 0 \/ S < 0 \/ PY_SSIZE_T_MAX < array_bytes S L)).
Proof.
  unfold image_unpacker.
  destruct (unpack_from (L * S) buffer (byte_offset P R)) as [t|e'] eqn:Hu;
    cbn [bind].
  - intros Hr. right. right.
    pose proof (UnpackerMore.length_unpacked _ _ _ _ Hu) as Hlen.
    split.
    + revert Hr. unfold reshape, new_array, mismatch, too_big.
      repeat match goal with
             | |- context [if ?b then _ else _] => destruct b
             end;
        intros Hr; try discriminate Hr; injection Hr as <-;
        eexists; reflexivity.
    + destruct (Z.ltb_spec L 0); [lia|].
      destruct (Z.ltb_spec S 0); [lia|].
      destruct (Z.ltb_spec PY_SSIZE_T_MAX (array_bytes S L)); [lia|].
      rewrite UnpackerFacts.reshape_of_shape in Hr by lia.
      discriminate Hr.
  - intros H. injection H as <-. revert Hu. unfold unpack_from.
    UnpackerFacts.split_ltb; intros Hu; try discriminate Hu;
      injection Hu as <-;
      try (left; eexists; reflexivity);
      right; left; (split; [eexists; reflexivity|lia]).
Qed.

Lemma unpacker_raises_only_three_kinds_witness :
  (exists msg, StructError (BufferTooSmall 14 12 2 10) = StructError msg) \/
  ((exists msg, StructError (BufferTooSmall 14 12 2 10) = OverflowError msg) /\
   (byte_offset 2 2 < PY_SSIZE_T_MIN \/ PY_SSIZE_T_MAX < byte_offset 2 2)) \/
  ((exists msg, StructError (BufferTooSmall 14 12 2 10) = ValueError msg) /\
   (3 < 0 \/ 2 < 0 \/ PY_SSIZE_T_MAX < array_bytes 2 3)).
Proof.
  apply (unpacker_raises_only_three_kinds padded_buffer 2 2 3 2).
  vm_compute. reflexivity.
Defined.

End ErrorKinds.
